(** * SQLite to PostgreSQL migration script: model and verification

    Shallow embedding of [scripts/migrate-sqlite-to-pg.py].

    - Python values are an inductive type [pyval]; Python integers are [Z].
    - Exceptions are values of type [exn]; a computation that may raise
      returns a [result].
    - The mutable objects the script threads through its calls (the
      [MigrationStats] instance, the psycopg2 connection and standard
      output) form the [world]; effectful code lives in the monad [M],
      which keeps every mutation made before an exception was raised, the
      way Python does.
    - The [json] module and the [str] builtin are library code: they are the
      fields of the class [PyLib].
    - The source database is a read-only collaborator ([sqlite_conn]); the
      destination is a transactional store ([pg_conn]) whose constraints
      are the fields of the class [PgSchema]. *)

From stdpp Require Import gmap strings list fin_maps pretty.
From Stdlib Require Import ZArith.
From Corelib Require Import SpecFloat.

Open Scope Z_scope.

(** ** Python values, exceptions *)

(** What [sqlite3] hands out (None, int, float, str, bytes), what the
    converters add (bool) and what [json.loads] builds (list, dict). A
    float is its IEEE 754 description. *)
#[local] Unset Elimination Schemes.
Inductive pyval : Type :=
| PNone
| PBool (b : bool)
| PInt (z : Z)
| PFloat (f : spec_float)
| PStr (s : string)
| PBytes (b : list Byte.byte)
| PList (l : list pyval)
| PDict (d : list (string * pyval)).
#[local] Set Elimination Schemes.

Definition is_none (v : pyval) : bool :=
  match v with PNone => true | _ => false end.

Definition float_is_zero (f : spec_float) : bool :=
  match f with S754_zero _ => true | _ => false end.

(** [bool(v)]: Python truthiness. *)
Definition py_bool (v : pyval) : bool :=
  match v with
  | PNone => false
  | PBool b => b
  | PInt z => negb (z =? 0)
  | PFloat f => negb (float_is_zero f)
  | PStr s => negb (String.eqb s "")
  | PBytes b => match b with [] => false | _ => true end
  | PList l => match l with [] => false | _ => true end
  | PDict d => match d with [] => false | _ => true end
  end.

(** The exception classes the script can meet. All derive from
    [Exception]; only [convert_json] tells them apart. *)
Inductive exn_class : Type :=
| JSONDecodeError
| TypeError
| ValueError
| RecursionError
| IndexError
| OperationalError          (* sqlite3 *)
| DatabaseError             (* psycopg2: a statement the server refuses *)
| InFailedSqlTransaction.   (* psycopg2: statement sent in an aborted transaction *)

Record exn : Type := Exn { exn_cls : exn_class; exn_msg : string }.

(** [str(e)] *)
Definition str_exn (e : exn) : string := exn_msg e.

Inductive result (A : Type) : Type :=
| Ok (a : A)
| Raise (e : exn).
Arguments Ok {A} a.
Arguments Raise {A} e.

Definition result_bind {A B} (r : result A) (f : A -> result B) : result B :=
  match r with Ok a => f a | Raise e => Raise e end.

(** [try: r  except (c1, c2, ...): h] on pure code *)
Definition result_except {A} (r : result A) (caught : exn_class -> bool)
    (h : result A) : result A :=
  match r with
  | Ok a => Ok a
  | Raise e => if caught (exn_cls e) then h else Raise e
  end.

(** The Python library: [json.loads] on a str, [json.dumps], and [repr]
    for the values whose text is not modelled here (floats, bytes, lists
    and dicts). *)
Class PyLib : Type := {
  json_loads : string -> result pyval;
  json_dumps : pyval -> result string;
  py_repr : pyval -> string
}.

(** [str(v)], also what an f-string writes for [{v}]. *)
Definition py_str `{PyLib} (v : pyval) : string :=
  match v with
  | PNone => "None"
  | PBool true => "True"
  | PBool false => "False"
  | PInt z => pretty z
  | PStr s => s
  | _ => py_repr v
  end.

(** ** Configuration tables *)

(** A dict literal, in insertion order. *)
Fixpoint dict_get {V : Type} (d : list (string * V)) (k : string) : option V :=
  match d with
  | [] => None
  | (k', v) :: d' => if bool_decide (k = k') then Some v else dict_get d' k
  end.

Definition MIGRATION_ORDER : list string := [
  "users";
  "conversation_sessions";
  "custom_agents";
  "conversation_messages";
  "agent_usage_logs";
  "agent_feedback";
  "audit_logs";
  "alert_history";
  "user_memories";
  "memory_tags";
  "research_sessions";
  "research_steps";
  "agent_marketplace";
  "agent_reviews";
  "agent_installations";
  "canvas_documents";
  "canvas_versions";
  "external_connections";
  "external_files";
  "api_usage"
].

Definition BOOLEAN_COLUMNS : list (string * list string) := [
  ("users", ["is_active"]);
  ("custom_agents", ["enabled"]);
  ("agent_marketplace", ["is_free"; "is_featured"; "is_verified"]);
  ("alert_history", ["acknowledged"]);
  ("agent_usage_logs", ["success"]);
  ("canvas_documents", ["is_shared"]);
  ("external_connections", ["is_active"])
].

Definition JSON_COLUMNS : list (string * list string) := [
  ("conversation_sessions", ["metadata"]);
  ("api_usage", ["models"]);
  ("agent_feedback", ["tags"]);
  ("custom_agents", ["keywords"]);
  ("audit_logs", ["details"]);
  ("alert_history", ["data"]);
  ("agent_marketplace", ["tags"]);
  ("research_sessions", ["key_findings"; "sources"]);
  ("research_steps", ["sources"]);
  ("external_connections", ["metadata"])
].

Definition DATETIME_COLUMNS : list (string * list string) := [
  ("users", ["created_at"; "updated_at"; "last_login"]);
  ("conversation_sessions", ["created_at"; "updated_at"]);
  ("conversation_messages", ["created_at"]);
  ("api_usage", ["created_at"; "updated_at"]);
  ("agent_usage_logs", ["timestamp"]);
  ("agent_feedback", ["created_at"]);
  ("custom_agents", ["created_at"; "updated_at"]);
  ("audit_logs", ["timestamp"]);
  ("alert_history", ["created_at"; "acknowledged_at"]);
  ("user_memories", ["last_accessed"; "created_at"; "updated_at"; "expires_at"]);
  ("memory_tags", []);
  ("research_sessions", ["created_at"; "updated_at"; "completed_at"]);
  ("research_steps", ["created_at"]);
  ("agent_marketplace", ["created_at"; "updated_at"; "published_at"]);
  ("agent_reviews", ["created_at"]);
  ("agent_installations", ["installed_at"]);
  ("canvas_documents", ["created_at"; "updated_at"]);
  ("canvas_versions", ["created_at"]);
  ("external_connections", ["token_expires_at"; "created_at"; "updated_at"]);
  ("external_files", ["last_synced"; "created_at"])
].

Definition SERIAL_COLUMNS : list (string * string) := [
  ("conversation_messages", "id");
  ("api_usage", "id");
  ("agent_usage_logs", "id");
  ("audit_logs", "id");
  ("alert_history", "id");
  ("memory_tags", "id");
  ("research_steps", "id");
  ("agent_installations", "id");
  ("canvas_versions", "id")
].

(** [table in d and column in d[table]] *)
Definition has_rule (d : list (string * list string)) (table column : string) : bool :=
  match dict_get d table with
  | Some cols => bool_decide (column ∈ cols)
  | None => false
  end.

(** ** MigrationStats *)

(** [skipped_rows] is a dict: keys are unique and keep their insertion
    order, which [print_summary] shows. *)
Record MigrationStats : Type := {
  tables_migrated : Z;
  total_rows : Z;
  errors : list string;
  skipped_rows : list (string * Z)
}.

(** [__init__] *)
Definition MigrationStats_init : MigrationStats :=
  {| tables_migrated := 0; total_rows := 0; errors := []; skipped_rows := [] |}.

(** [d[k] = v] *)
Fixpoint dict_set {V : Type} (d : list (string * V)) (k : string) (v : V)
    : list (string * V) :=
  match d with
  | [] => [(k, v)]
  | (k', v') :: d' =>
      if bool_decide (k = k') then (k', v) :: d' else (k', v') :: dict_set d' k v
  end.

Definition dict_mem {V : Type} (d : list (string * V)) (k : string) : bool :=
  match dict_get d k with Some _ => true | None => false end.

Definition add_error (table : string) (row_num : Z) (error : string)
    (self : MigrationStats) : MigrationStats :=
  let errors' :=
    errors self ++ ["  " +:+ table +:+ " row " +:+ pretty row_num +:+ ": " +:+ error] in
  let skipped0 :=
    if negb (dict_mem (skipped_rows self) table)
    then dict_set (skipped_rows self) table 0
    else skipped_rows self in
  let skipped1 :=
    dict_set skipped0 table (default 0 (dict_get skipped0 table) + 1) in
  {| tables_migrated := tables_migrated self;
     total_rows := total_rows self;
     errors := errors';
     skipped_rows := skipped1 |}.

Fixpoint str_mul (s : string) (n : nat) : string :=
  match n with O => "" | S n' => s +:+ str_mul s n' end.

Definition newline : string := String (Ascii.ascii_of_nat 10) "".

(** The lines [print_summary] writes, one per [print] call. *)
Definition print_summary (self : MigrationStats) : list string :=
  [newline +:+ str_mul "=" 60;
   "MIGRATION SUMMARY";
   str_mul "=" 60;
   "Tables migrated: " +:+ pretty (tables_migrated self);
   "Total rows migrated: " +:+ pretty (total_rows self)]
  ++ (match errors self with
      | [] => []
      | _ =>
          ["Errors encountered: " +:+ pretty (Z.of_nat (length (errors self)));
           newline +:+ "Error details:"]
          ++ take 20 (errors self)
          ++ (if 20 <? Z.of_nat (length (errors self))
              then ["  ... and " +:+ pretty (Z.of_nat (length (errors self)) - 20)
                    +:+ " more errors"]
              else [])
      end)
  ++ (match skipped_rows self with
      | [] => []
      | _ =>
          (newline +:+ "Skipped rows by table:")
          :: map (fun tc => "  " +:+ fst tc +:+ ": " +:+ pretty (snd tc)) (skipped_rows self)
      end)
  ++ [str_mul "=" 60].

(** ** Value conversion *)

Section Converters.
Context `{PyLib}.

Definition convert_boolean (value : pyval) : pyval :=
  if is_none value then PNone else PBool (py_bool value).

Definition convert_json (value : pyval) : result pyval :=
  if is_none value then Ok PNone
  else match value with
       | PStr s =>
           result_except
             (result_bind (json_loads s) (fun parsed =>
              result_bind (json_dumps parsed) (fun r => Ok (PStr r))))
             (fun c => match c with
                       | JSONDecodeError | TypeError => true
                       | _ => false
                       end)
             (Ok PNone)
       | _ => result_bind (json_dumps value) (fun r => Ok (PStr r))
       end.

Definition convert_datetime (value : pyval) : pyval :=
  if is_none value then PNone
  else match value with
       | PStr s => PStr s
       | _ => PStr (py_str value)
       end.

Definition convert_value (table column : string) (value : pyval) : result pyval :=
  if is_none value then Ok PNone
  else if has_rule BOOLEAN_COLUMNS table column then Ok (convert_boolean value)
  else if has_rule JSON_COLUMNS table column then convert_json value
  else if has_rule DATETIME_COLUMNS table column then Ok (convert_datetime value)
  else Ok value.

End Converters.

(** ** The source database *)

(** The [sqlite3] connection, as the script uses it: the column names that
    [PRAGMA table_info] lists (an empty list for an unknown table) and the
    rows of [SELECT * FROM table]. Reading never changes the source. *)
Record sqlite_conn : Type := {
  table_info : string -> result (list string);
  select_all : string -> result (list (list pyval))
}.

Definition get_table_columns (sqlite_conn : sqlite_conn) (table : string)
    : result (list string) :=
  table_info sqlite_conn table.

(** ** The destination database *)

(** A stored row: the values of an [INSERT], each under its column. *)
Definition pg_row : Type := list (string * pyval).

Inductive replication_role : Type := Origin | Replica.

(** A sequence hands out [last_value] first, and [last_value + 1] once it
    has been called. Sequences of SERIAL columns start at 1 and refuse
    smaller values (their upper bound is not modelled). *)
Record pg_sequence : Type := {
  last_value : Z;
  is_called : bool
}.

Definition seq_min_value : Z := 1.

Definition nextval (s : pg_sequence) : Z :=
  if is_called s then last_value s + 1 else last_value s.

(** What a session sees: tables, sequences and its own
    [session_replication_role] (under [Replica] foreign keys are not
    enforced). All three follow the transaction: a rollback undoes them. *)
Record pg_state : Type := {
  db_tables : gmap string (list pg_row);
  db_sequences : gmap string pg_sequence;
  session_replication_role : replication_role
}.

(** A psycopg2 connection without autocommit: [committed] is the state of
    the last commit, [current] the state inside the open transaction, and
    [tx_failed] says that a statement failed in it, after which the server
    refuses every statement until the transaction is rolled back. *)
Record pg_conn : Type := {
  committed : pg_state;
  current : pg_state;
  tx_failed : bool
}.

(** The constraints of the destination schema: which rows an INSERT into a
    table accepts (column list, arity, types, NOT NULL, ...), and which
    stored row makes a new one collide on a primary key or unique
    constraint. *)
Class PgSchema : Type := {
  accepts : string -> list string -> list pyval -> bool;
  conflicts : string -> pg_row -> pg_row -> bool
}.

(** The statements the script sends. *)
Inductive pg_stmt : Type :=
| InsertOnConflictDoNothing (table : string) (columns : list string) (row : list pyval)
| SelectMax (col table : string)
| Setval (seq_name : string) (max_val : pyval)
| SetSessionReplicationRole (role : replication_role).

(** What a cursor shows after [execute]: [rowcount] and [fetchone()[0]]. *)
Record pg_cursor : Type := {
  rowcount : Z;
  fetchone0 : pyval
}.

Definition column_int (col : string) (r : pg_row) : option Z :=
  match dict_get r col with
  | Some (PInt z) => Some z
  | _ => None
  end.

(** [MAX(col)] over the rows: NULL when no row has a value. *)
Definition pg_max (col : string) (rows : list pg_row) : pyval :=
  match omap (column_int col) rows with
  | [] => PNone
  | z :: zs => PInt (foldr Z.max z zs)
  end.

Definition set_tables (t : gmap string (list pg_row)) (s : pg_state) : pg_state :=
  {| db_tables := t;
     db_sequences := db_sequences s;
     session_replication_role := session_replication_role s |}.

Definition set_sequences (q : gmap string pg_sequence) (s : pg_state) : pg_state :=
  {| db_tables := db_tables s;
     db_sequences := q;
     session_replication_role := session_replication_role s |}.

Definition set_role (r : replication_role) (s : pg_state) : pg_state :=
  {| db_tables := db_tables s;
     db_sequences := db_sequences s;
     session_replication_role := r |}.

Section Destination.
Context `{PgSchema}.

(** One statement on the state of the open transaction. An INSERT needs
    one value for each of its placeholders (psycopg2 raises otherwise), a
    table that exists and a row that the table accepts; the row is then
    stored unless it collides with a stored one. *)
Definition run_stmt (stmt : pg_stmt) (s : pg_state) : result (pg_cursor * pg_state) :=
  match stmt with
  | InsertOnConflictDoNothing table columns row =>
      match Nat.compare (length row) (length columns) with
      | Lt => Raise (Exn IndexError "tuple index out of range")
      | Gt => Raise (Exn TypeError "not all arguments converted during string formatting")
      | Eq =>
          match db_tables s !! table with
          | None => Raise (Exn DatabaseError "relation does not exist")
          | Some rows =>
              if accepts table columns row then
                let r := zip columns row in
                if existsb (conflicts table r) rows
                then Ok ({| rowcount := 0; fetchone0 := PNone |}, s)
                else Ok ({| rowcount := 1; fetchone0 := PNone |},
                         set_tables (<[table := rows ++ [r]]> (db_tables s)) s)
              else Raise (Exn DatabaseError "row rejected by the table")
          end
      end
  | SelectMax col table =>
      match db_tables s !! table with
      | None => Raise (Exn DatabaseError "relation does not exist")
      | Some rows => Ok ({| rowcount := 1; fetchone0 := pg_max col rows |}, s)
      end
  | Setval seq_name max_val =>
      match max_val with
      | PInt z =>
          match db_sequences s !! seq_name with
          | None => Raise (Exn DatabaseError "relation does not exist")
          | Some _ =>
              if seq_min_value <=? z then
                Ok ({| rowcount := 1; fetchone0 := PInt z |},
                    set_sequences
                      (<[seq_name := {| last_value := z; is_called := true |}]>
                         (db_sequences s)) s)
              else Raise (Exn DatabaseError "setval: value out of bounds for sequence")
          end
      | _ => Raise (Exn DatabaseError "syntax error")
      end
  | SetSessionReplicationRole role =>
      Ok ({| rowcount := -1; fetchone0 := PNone |}, set_role role s)
  end.

(** [cursor.execute]: a statement sent in a failed transaction is
    refused; a statement that fails makes the transaction a failed one. *)
Definition pg_execute (stmt : pg_stmt) (c : pg_conn) : result pg_cursor * pg_conn :=
  if tx_failed c then
    (Raise (Exn InFailedSqlTransaction
              "current transaction is aborted, commands ignored until end of transaction block"),
     c)
  else
    match run_stmt stmt (current c) with
    | Ok (cur, s') =>
        (Ok cur, {| committed := committed c; current := s'; tx_failed := false |})
    | Raise e =>
        (Raise e, {| committed := committed c; current := current c; tx_failed := true |})
    end.

End Destination.

(** A new connection: no transaction yet. *)
Definition connect (db : pg_state) : pg_conn :=
  {| committed := db; current := db; tx_failed := false |}.

(** [conn.commit()]: the server ends a failed transaction by rolling it
    back. *)
Definition pg_commit (c : pg_conn) : pg_conn :=
  if tx_failed c
  then {| committed := committed c; current := committed c; tx_failed := false |}
  else {| committed := current c; current := current c; tx_failed := false |}.

(** [conn.rollback()] *)
Definition pg_rollback (c : pg_conn) : pg_conn :=
  {| committed := committed c; current := committed c; tx_failed := false |}.

(** [conn.close()]: what was not committed is lost. *)
Definition pg_close (c : pg_conn) : pg_conn :=
  {| committed := committed c; current := committed c; tx_failed := false |}.

(** ** The objects the script mutates, and the monad over them *)

Record world : Type := {
  stats : MigrationStats;
  pg : pg_conn;
  stdout : list string
}.

Definition with_stats (f : MigrationStats -> MigrationStats) (w : world) : world :=
  {| stats := f (stats w); pg := pg w; stdout := stdout w |}.

Definition with_pg (f : pg_conn -> pg_conn) (w : world) : world :=
  {| stats := stats w; pg := f (pg w); stdout := stdout w |}.

Definition with_line (line : string) (w : world) : world :=
  {| stats := stats w; pg := pg w; stdout := stdout w ++ [line] |}.

Definition M (A : Type) : Type := world -> result A * world.

Definition ret {A} (a : A) : M A := fun w => (Ok a, w).

Definition bind {A B} (m : M A) (f : A -> M B) : M B :=
  fun w =>
    match m w with
    | (Ok a, w') => f a w'
    | (Raise e, w') => (Raise e, w')
    end.

(** [try: m  except Exception as e: h e] *)
Definition try_except {A} (m : M A) (h : exn -> M A) : M A :=
  fun w =>
    match m w with
    | (Ok a, w') => (Ok a, w')
    | (Raise e, w') => h e w'
    end.

Definition lift {A} (r : result A) : M A := fun w => (r, w).

Notation "'do' x <- m ; k" := (bind m (fun x => k))
  (at level 10, x name, m at level 100, k at level 200,
   format "'[v' 'do'  x  <-  m ; '/' k ']'").
Notation "'run' m ; k" := (bind m (fun _ => k))
  (at level 10, m at level 100, k at level 200,
   format "'[v' 'run'  m ; '/' k ']'").

Definition print (line : string) : M unit :=
  fun w => (Ok tt, with_line line w).

Definition modify_stats (f : MigrationStats -> MigrationStats) : M unit :=
  fun w => (Ok tt, with_stats f w).

Definition modify_pg (f : pg_conn -> pg_conn) : M unit :=
  fun w => (Ok tt, with_pg f w).

Definition add_total_rows (n : Z) (self : MigrationStats) : MigrationStats :=
  {| tables_migrated := tables_migrated self;
     total_rows := total_rows self + n;
     errors := errors self;
     skipped_rows := skipped_rows self |}.

Definition incr_tables_migrated (self : MigrationStats) : MigrationStats :=
  {| tables_migrated := tables_migrated self + 1;
     total_rows := total_rows self;
     errors := errors self;
     skipped_rows := skipped_rows self |}.

(** [for x in l: body x] *)
Fixpoint for_each {A} (l : list A) (body : A -> M unit) : M unit :=
  match l with
  | [] => ret tt
  | x :: l' => run body x; for_each l' body
  end.

(** ** migrate_table, reset_sequences, main *)

Section Script.
Context `{PyLib} `{PgSchema}.

(** [cursor.execute(stmt)] on the connection of the world. *)
Definition execute (stmt : pg_stmt) : M pg_cursor :=
  fun w =>
    let (r, c) := pg_execute stmt (pg w) in
    (r, with_pg (fun _ => c) w).

(** [cursor.executemany(insert_sql, rows)]: one INSERT per row, stopping
    at the first that fails; the result is the cursor's [rowcount]
    afterwards, the total of the statements'. *)
Fixpoint executemany (table : string) (columns : list string)
    (rows : list (list pyval)) (count : Z) : M Z :=
  match rows with
  | [] => ret count
  | row :: rows' =>
      do cur <- execute (InsertOnConflictDoNothing table columns row);
      executemany table columns rows' (count + rowcount cur)
  end.

(** Lines 233-237: the columns of one row, left to right. [columns[col_idx]]
    raises IndexError past the end of the list. *)
Fixpoint convert_row (table : string) (columns : list string) (col_idx : nat)
    (row : list pyval) : result (list pyval) :=
  match row with
  | [] => Ok []
  | value :: row' =>
      match columns !! col_idx with
      | None => Raise (Exn IndexError "list index out of range")
      | Some col_name =>
          result_bind (convert_value table col_name value) (fun converted_value =>
          result_bind (convert_row table columns (S col_idx) row') (fun converted_row =>
          Ok (converted_value :: converted_row)))
      end
  end.

(** Lines 230-241: the rows, numbered from [row_num]; a row that raises
    is recorded and left out. The result is [converted_rows]. *)
Fixpoint convert_rows (table : string) (columns : list string) (row_num : Z)
    (rows : list (list pyval)) : M (list (list pyval)) :=
  match rows with
  | [] => ret []
  | row :: rows' =>
      match convert_row table columns 0 row with
      | Ok converted_row =>
          do converted_rows <- convert_rows table columns (row_num + 1) rows';
          ret (converted_row :: converted_rows)
      | Raise e =>
          run modify_stats (add_error table row_num (str_exn e));
          convert_rows table columns (row_num + 1) rows'
      end
  end.

(** Lines 256-271: the batch insert and its handler. Closing the cursor
    ([finally]) changes nothing that is modelled. *)
Definition batch_insert (table : string) (columns : list string)
    (converted_rows : list (list pyval)) : M Z :=
  try_except
    (do rows_inserted <- executemany table columns converted_rows 0;
     run modify_pg pg_commit;
     run print ("  ✓ " +:+ table +:+ ": " +:+ pretty rows_inserted +:+ " rows migrated");
     run modify_stats (add_total_rows rows_inserted);
     ret rows_inserted)
    (fun e =>
       run modify_pg pg_rollback;
       run modify_stats (add_error table 0 ("Batch insert failed: " +:+ str_exn e));
       run print ("  ✗ " +:+ table +:+ ": Batch insert failed - " +:+ str_exn e);
       ret 0).

Definition migrate_table (sqlite_conn : sqlite_conn) (table : string) : M Z :=
  try_except
    (do columns <- lift (get_table_columns sqlite_conn table);
     match columns with
     | [] =>
         run print ("  ⚠️  Table '" +:+ table +:+ "' not found in SQLite, skipping");
         ret 0
     | _ =>
         do rows <- lift (select_all sqlite_conn table);
         match rows with
         | [] =>
             run print ("  ✓ " +:+ table +:+ ": 0 rows");
             ret 0
         | _ =>
             do converted_rows <- convert_rows table columns 1 rows;
             match converted_rows with
             | [] =>
                 run print ("  ✓ " +:+ table +:+ ": 0 rows (all skipped due to errors)");
                 ret 0
             | _ => batch_insert table columns converted_rows
             end
         end
     end)
    (fun e =>
       run modify_stats (add_error table 0 ("Table migration failed: " +:+ str_exn e));
       run print ("  ✗ " +:+ table +:+ ": " +:+ str_exn e);
       ret 0).

(** Line 287: [f"{table}_{col}_seq"]. *)
Definition seq_name_of (table col : string) : string :=
  table +:+ "_" +:+ col +:+ "_seq".

(** Lines 286-294: what the loop of [reset_sequences] tries for one
    table. *)
Definition repair_sequence (table col : string) : M unit :=
  let seq_name := seq_name_of table col in
  do cur <- execute (SelectMax col table);
  let max_val := fetchone0 cur in
  if py_bool max_val then
    run execute (Setval seq_name max_val);
    run modify_pg pg_commit;
    print ("  ✓ Reset " +:+ seq_name +:+ " to " +:+ py_str max_val)
  else ret tt.

(** Lines 285-296: the body of the loop, with its handler. *)
Definition reset_sequence (table col : string) : M unit :=
  try_except
    (repair_sequence table col)
    (fun e =>
       print ("  ⚠️  Could not reset " +:+ seq_name_of table col +:+ ": " +:+ str_exn e)).

Definition reset_sequences : M unit :=
  run print (newline +:+ "Resetting sequences...");
  for_each SERIAL_COLUMNS (fun item => reset_sequence (fst item) (snd item)).

(** Lines 380-382. *)
Definition migrate_tables (sqlite_conn : sqlite_conn) (order : list string) : M unit :=
  for_each order (fun table =>
    run migrate_table sqlite_conn table;
    modify_stats incr_tables_migrated).

(** Lines 370-375: "Disable FK checks during migration". *)
Definition disable_fk_checks : M unit :=
  run execute (SetSessionReplicationRole Replica);
  run modify_pg pg_commit;
  print "✓ FK checks disabled for migration session".

(** Lines 387-392: "Re-enable FK checks". *)
Definition enable_fk_checks : M unit :=
  run execute (SetSessionReplicationRole Origin);
  run modify_pg pg_commit;
  print "✓ FK checks re-enabled".

(** [main] from line 367 on, both connections made. The result is the
    argument of [sys.exit]; an exception that leaves it is an uncaught
    one. *)
Definition main_connected (sqlite_conn : sqlite_conn) : M Z :=
  run disable_fk_checks;
  run print (newline +:+ "Migrating tables...");
  run print (str_mul "-" 60);
  run migrate_tables sqlite_conn MIGRATION_ORDER;
  run reset_sequences;
  run enable_fk_checks;
  run modify_pg pg_close;
  do w <- (fun w => (Ok w, w));
  run for_each (print_summary (stats w)) print;
  match errors (stats w) with
  | [] =>
      run print (newline +:+ "✓ Migration completed successfully!");
      ret 0
  | _ => ret 1
  end.

End Script.

(** ** The process: arguments, environment, connections *)

(** What [main] reads before it has its connections: the two command-line
    options, [DATABASE_URL], the file system, and what connecting gives
    (for the destination, the state the new session sees). *)
Record environment : Type := {
  args_sqlite : option string;
  args_pg : option string;
  getenv_DATABASE_URL : option string;
  os_path_exists : string -> bool;
  sqlite3_connect : string -> result sqlite_conn;
  psycopg2_connect : string -> result pg_state
}.

(** How the process ends: [sys.exit(code)], or an exception nobody
    caught. *)
Inductive termination : Type :=
| SysExit (code : Z)
| Uncaught (e : exn).

(** [session] is [None] when the run ended before both connections were
    made; otherwise it holds the statistics and the destination connection
    as the run left them. *)
Record outcome : Type := {
  ending : termination;
  printed : list string;
  session : option (MigrationStats * pg_conn)
}.

(** Truthiness of an optional string: [None] and [""] are false. *)
Definition str_truthy (o : option string) : bool :=
  match o with
  | Some s => negb (String.eqb s "")
  | None => false
  end.

(** [s.split(c)] *)
Fixpoint str_split (c : Ascii.ascii) (s : string) : list string :=
  match s with
  | EmptyString => [""]
  | String a s' =>
      if Ascii.eqb a c then "" :: str_split c s'
      else match str_split c s' with
           | h :: t => String a h :: t
           | [] => [String a ""]
           end
  end.

Definition at_sign : Ascii.ascii := Ascii.ascii_of_nat 64.

(** Line 346: the text shown for the target. *)
Definition target_line (pg_url : string) : string :=
  let parts := str_split at_sign pg_url in
  "Target: " +:+ default "" (parts !! 0%nat) +:+ "@"
  +:+ (if bool_decide (1 < length parts)%nat
       then default "" (parts !! 1%nat)
       else "unknown").

Definition early_exit (lines : list string) : outcome :=
  {| ending := SysExit 1; printed := lines; session := None |}.

Section Main.
Context `{PyLib} `{PgSchema}.

Definition main (env : environment) : outcome :=
  let sqlite_path :=
    if str_truthy (args_sqlite env) then args_sqlite env
    else if os_path_exists env "/Volumes/MAC_APP/openmake_llm/data/unified.db"
         then Some "/Volumes/MAC_APP/openmake_llm/data/unified.db"
         else None in
  match sqlite_path with
  | None => early_exit ["Error: SQLite database not found. Specify with --sqlite"]
  | Some sqlite_path =>
      let pg_url :=
        if str_truthy (args_pg env) then args_pg env else getenv_DATABASE_URL env in
      if negb (str_truthy pg_url) then
        early_exit ["Error: PostgreSQL connection string not provided.";
                    "Use --pg argument or set DATABASE_URL environment variable"]
      else
        let pg_url := default "" pg_url in
        if negb (os_path_exists env sqlite_path) then
          early_exit ["Error: SQLite database not found at " +:+ sqlite_path]
        else
          let banner :=
            [str_mul "=" 60;
             "SQLite to PostgreSQL Migration";
             str_mul "=" 60;
             "Source: " +:+ sqlite_path;
             target_line pg_url;
             ""] in
          match sqlite3_connect env sqlite_path with
          | Raise e =>
              early_exit (banner ++ ["✗ Failed to connect to SQLite: " +:+ str_exn e])
          | Ok sqlite_conn =>
              match psycopg2_connect env pg_url with
              | Raise e =>
                  early_exit (banner ++ ["✓ Connected to SQLite";
                                         "✗ Failed to connect to PostgreSQL: " +:+ str_exn e])
              | Ok db =>
                  let w0 :=
                    {| stats := MigrationStats_init;
                       pg := connect db;
                       stdout := banner ++ ["✓ Connected to SQLite";
                                            "✓ Connected to PostgreSQL"] |} in
                  let (r, w) := main_connected sqlite_conn w0 in
                  {| ending := match r with Ok code => SysExit code | Raise e => Uncaught e end;
                     printed := stdout w;
                     session := Some (stats w, pg w) |}
              end
          end
  end.

End Main.

(** ** Vocabulary of the statements *)

(** The values the specification calls zero or empty. *)
Definition zero_or_empty (v : pyval) : Prop :=
  v = PBool false \/ v = PInt 0 \/ (exists sign, v = PFloat (S754_zero sign))
  \/ v = PStr "" \/ v = PBytes [] \/ v = PList [] \/ v = PDict [].

(** The sum of the values of a dict of counts. *)
Definition dict_sum (d : list (string * Z)) : Z :=
  foldr (fun tc acc => snd tc + acc) 0 d.

(** The count [skipped_rows] holds for a table, 0 when it has none. *)
Definition skipped_of (self : MigrationStats) (table : string) : Z :=
  default 0 (dict_get (skipped_rows self) table).

(** Everything the script does to a [MigrationStats]: the one method that
    writes, and the two counters [main] and [migrate_table] add to. *)
Inductive stats_op : Type :=
| OpAddError (table : string) (row_num : Z) (error : string)
| OpAddTotalRows (n : Z)
| OpIncrTablesMigrated.

Definition apply_op (self : MigrationStats) (op : stats_op) : MigrationStats :=
  match op with
  | OpAddError table row_num error => add_error table row_num error self
  | OpAddTotalRows n => add_total_rows n self
  | OpIncrTablesMigrated => incr_tables_migrated self
  end.

Definition stats_invariant (self : MigrationStats) : Prop :=
  Z.of_nat (length (errors self)) = dict_sum (skipped_rows self).

(** ** Sample library, schema and databases

    Concrete instances on which the statements below are exercised. *)

Definition dquote : string := String (Ascii.ascii_of_nat 34) "".

(** A small [json]: the texts it parses, with their values. Any other text
    is refused with JSONDecodeError. *)
Definition sample_json_texts : list (string * pyval) := [
  ("null", PNone);
  ("true", PBool true);
  ("[]", PList []);
  ("[ ]", PList []);
  ("{}", PDict []);
  ("{ }", PDict []);
  ("[1,2]", PList [PInt 1; PInt 2]);
  ("[1, 2]", PList [PInt 1; PInt 2])
].

Definition sample_json_loads (s : string) : result pyval :=
  match dict_get sample_json_texts s with
  | Some v => Ok v
  | None => Raise (Exn JSONDecodeError "Expecting value: line 1 column 1 (char 0)")
  end.

Definition sample_json_dumps (v : pyval) : result string :=
  match v with
  | PNone => Ok "null"
  | PBool true => Ok "true"
  | PBool false => Ok "false"
  | PInt z => Ok (pretty z)
  | PList [] => Ok "[]"
  | PList [PInt 1; PInt 2] => Ok "[1, 2]"
  | PDict [] => Ok "{}"
  | PBytes _ => Raise (Exn TypeError "Object of type bytes is not JSON serializable")
  | _ => Raise (Exn ValueError "not in the sample")
  end.

Definition sample_lib : PyLib := {|
  json_loads := sample_json_loads;
  json_dumps := sample_json_dumps;
  py_repr := fun _ => "<repr>"
|}.

(** A schema in which every table has the primary key [id], an integer or
    a text that is NOT NULL, and takes one value per listed column. *)
Definition sample_key (r : pg_row) : pyval := default PNone (dict_get r "id").

Definition sample_key_eqb (a b : pyval) : bool :=
  match a, b with
  | PInt x, PInt y => x =? y
  | PStr x, PStr y => String.eqb x y
  | _, _ => false
  end.

Definition sample_schema : PgSchema := {|
  accepts := fun table columns row =>
    bool_decide (length columns = length row)
    && negb (is_none (sample_key (zip columns row)));
  conflicts := fun table r1 r2 => sample_key_eqb (sample_key r1) (sample_key r2)
|}.

(** A source with three tables; the second row of [audit_logs] holds bytes
    in a JSON column, the third a text that is not JSON. *)
Definition sample_source_tables : list (string * (list string * list (list pyval))) := [
  ("users",
   (["id"; "is_active"; "created_at"],
    [[PStr "u1"; PInt 1; PStr "2024-01-30 15:21:00"];
     [PStr "u2"; PInt 0; PNone]]));
  ("conversation_messages",
   (["id"; "content"],
    [[PInt 3; PStr "a"]; [PInt 7; PStr "b"]; [PInt 12; PStr "c"]]));
  ("audit_logs",
   (["id"; "details"],
    [[PInt 1; PStr "{ }"];
     [PInt 2; PBytes [Byte.x00]];
     [PInt 3; PStr "not json"]]))
].

Definition source_of (tables : list (string * (list string * list (list pyval))))
    : sqlite_conn :=
  {| table_info := fun table =>
       Ok (match dict_get tables table with Some t => fst t | None => [] end);
     select_all := fun table =>
       match dict_get tables table with
       | Some t => Ok (snd t)
       | None => Raise (Exn OperationalError ("no such table: " +:+ table))
       end |}.

Definition sample_source : sqlite_conn := source_of sample_source_tables.

(** A destination with every table of the plan, empty, and a fresh
    sequence for each SERIAL column. *)
Definition fresh_sequence : pg_sequence := {| last_value := 1; is_called := false |}.

Definition sample_dest : pg_state :=
  {| db_tables := list_to_map (map (fun table => (table, [])) MIGRATION_ORDER);
     db_sequences :=
       list_to_map (map (fun item => (seq_name_of (fst item) (snd item), fresh_sequence))
                        SERIAL_COLUMNS);
     session_replication_role := Origin |}.

Definition sample_env (source : sqlite_conn) (dest : pg_state) : environment :=
  {| args_sqlite := Some "data/unified.db";
     args_pg := Some "postgresql://migrator@localhost/openmake";
     getenv_DATABASE_URL := None;
     os_path_exists := fun _ => true;
     sqlite3_connect := fun _ => Ok source;
     psycopg2_connect := fun _ => Ok dest |}.

Definition sample_world (dest : pg_state) : world :=
  {| stats := MigrationStats_init; pg := connect dest; stdout := [] |}.

Section RowVocabulary.
Context `{PyLib} `{PgSchema}.

(** The rows that convert, converted, in their order. *)
Definition converted_rows_of (table : string) (columns : list string)
    (rows : list (list pyval)) : list (list pyval) :=
  omap (fun row => match convert_row table columns 0 row with
                   | Ok converted_row => Some converted_row
                   | Raise _ => None
                   end) rows.

(** The statistics once the rows that fail to convert are recorded, the
    rows being numbered from [row_num]. *)
Fixpoint record_row_errors (table : string) (columns : list string) (row_num : Z)
    (rows : list (list pyval)) (self : MigrationStats) : MigrationStats :=
  match rows with
  | [] => self
  | row :: rows' =>
      record_row_errors table columns (row_num + 1) rows'
        (match convert_row table columns 0 row with
         | Ok _ => self
         | Raise e => add_error table row_num (str_exn e) self
         end)
  end.

(** A row that an INSERT into the table takes: one value for each column,
    and nothing in the schema against it. *)
Definition accepted (table : string) (columns : list string) (row : list pyval) : Prop :=
  length row = length columns /\ accepts table columns row = true.

(** The rows of a table after the INSERTs of a batch that succeeds. *)
Definition insert_row (table : string) (columns : list string)
    (stored : list pg_row) (row : list pyval) : list pg_row :=
  if existsb (conflicts table (zip columns row)) stored
  then stored
  else stored ++ [zip columns row].

Definition insert_rows (table : string) (columns : list string)
    (rows : list (list pyval)) (stored : list pg_row) : list pg_row :=
  foldl (insert_row table columns) stored rows.

End RowVocabulary.

(** The rows a table holds in a state, none when it does not exist. *)
Definition rows_of (s : pg_state) (table : string) : list pg_row :=
  default [] (db_tables s !! table).

(** A connection between two transactions: nothing pending, nothing
    failed. *)
Definition clean (c : pg_conn) : Prop :=
  current c = committed c /\ tx_failed c = false.


(** A source whose only row has a negative key, and one whose only row has
    the key 0. *)
Definition negative_key_source : sqlite_conn :=
  source_of [("conversation_messages", (["id"; "content"], [[PInt (-1); PStr "a"]]))].

Definition zero_key_source : sqlite_conn :=
  source_of [("conversation_messages", (["id"; "content"], [[PInt 0; PStr "a"]]))].

(** The sample destination with the given rows in one table. *)
Definition sample_dest_with (table : string) (rows : list pg_row) : pg_state :=
  set_tables (<[table := rows]> (db_tables sample_dest)) sample_dest.

(** A table whose repair cannot fail: it exists, and either its maximum
    key is null or zero, or the maximum is at least 1 and the sequence
    named after the table exists. *)
Definition repairable (s : pg_state) (table col : string) : Prop :=
  exists rows,
    db_tables s !! table = Some rows
    /\ (py_bool (pg_max col rows) = false
        \/ exists z, pg_max col rows = PInt z /\ 1 <= z
                     /\ is_Some (db_sequences s !! seq_name_of table col)).

(** Worlds after a load: the destination holds the keys 3, 7 and 12 in
    [conversation_messages], or the single key 0. *)
Definition keys_3_7_12_world : world :=
  sample_world
    (sample_dest_with "conversation_messages"
       [[("id", PInt 3); ("content", PStr "a")];
        [("id", PInt 7); ("content", PStr "b")];
        [("id", PInt 12); ("content", PStr "c")]]).

Definition zero_key_world : world :=
  sample_world
    (sample_dest_with "conversation_messages" [[("id", PInt 0); ("content", PStr "a")]]).

(** The run over the source with the negative key. *)
Definition negative_key_run : outcome :=
  @main sample_lib sample_schema (sample_env negative_key_source sample_dest).

Definition in_failed_transaction : exn :=
  Exn InFailedSqlTransaction
      "current transaction is aborted, commands ignored until end of transaction block".

(** A source whose [audit_logs] has a row without a key, which the sample
    schema refuses, between two tables that load. *)
Definition null_key_source : sqlite_conn :=
  source_of [
    ("users", (["id"], [[PStr "u1"]]));
    ("audit_logs", (["id"; "details"], [[PInt 1; PStr "{}"]; [PNone; PStr "{}"]]));
    ("api_usage", (["id"; "models"], [[PInt 1; PStr "[1,2]"]]))
  ].

Definition tables_before_audit_logs : list string :=
  ["users"; "conversation_sessions"; "custom_agents"; "conversation_messages";
   "agent_usage_logs"; "agent_feedback"].

Definition tables_after_audit_logs : list string :=
  ["alert_history"; "user_memories"; "memory_tags"; "research_sessions";
   "research_steps"; "agent_marketplace"; "agent_reviews"; "agent_installations";
   "canvas_documents"; "canvas_versions"; "external_connections"; "external_files";
   "api_usage"].

(** A library that, like CPython's, gives up on a text nested deeper than
    its recursion limit: [json.loads] then raises RecursionError, which is
    not a JSONDecodeError. On other texts it is the sample library. *)
Fixpoint nesting_depth (s : string) (depth deepest : nat) : nat :=
  match s with
  | EmptyString => deepest
  | String a s' =>
      if Ascii.eqb a (Ascii.ascii_of_nat 91) || Ascii.eqb a (Ascii.ascii_of_nat 123)
      then nesting_depth s' (S depth) (Nat.max (S depth) deepest)
      else if Ascii.eqb a (Ascii.ascii_of_nat 93) || Ascii.eqb a (Ascii.ascii_of_nat 125)
      then nesting_depth s' (Nat.pred depth) deepest
      else nesting_depth s' depth deepest
  end.

Definition recursion_limit : nat := 1000.

Definition recursion_error : exn :=
  Exn RecursionError "maximum recursion depth exceeded while decoding a JSON array from a unicode string".

Definition deep_json_loads (s : string) : result pyval :=
  if bool_decide (recursion_limit < nesting_depth s 0 0)%nat
  then Raise recursion_error
  else sample_json_loads s.

Definition deep_lib : PyLib := {|
  json_loads := deep_json_loads;
  json_dumps := sample_json_dumps;
  py_repr := fun _ => "<repr>"
|}.

(** [ "[" * 2000 ] *)
Definition deep_text : string := str_mul "[" 2000.

(** * Theorems *)

(** ** Dicts *)

Lemma dict_get_set_eq {V} (d : list (string * V)) k v :
  dict_get (dict_set d k v) k = Some v.
Proof.
  induction d as [|[k' v'] d IH]; simpl.
  - by rewrite bool_decide_eq_true_2.
  - destruct (bool_decide (k = k')) eqn:E; simpl; rewrite E; done.
Qed.

Lemma dict_get_set_ne {V} (d : list (string * V)) k k' v :
  k <> k' -> dict_get (dict_set d k v) k' = dict_get d k'.
Proof.
  intros Hne. induction d as [|[k0 v0] d IH]; simpl.
  - rewrite bool_decide_eq_false_2; [done | congruence].
  - destruct (bool_decide (k = k0)) eqn:E; simpl.
    + apply bool_decide_eq_true_1 in E. subst k0.
      rewrite bool_decide_eq_false_2 by congruence. done.
    + destruct (bool_decide (k' = k0)); done.
Qed.

Lemma dict_sum_set (d : list (string * Z)) k v :
  dict_sum (dict_set d k v) = dict_sum d - default 0 (dict_get d k) + v.
Proof.
  unfold dict_sum. induction d as [|[k' v'] d IH]; simpl.
  - lia.
  - destruct (bool_decide (k = k')) eqn:E; simpl; lia.
Qed.

(** ** MigrationStats *)

Lemma add_error_errors table row_num error self :
  errors (add_error table row_num error self)
  = errors self ++ ["  " +:+ table +:+ " row " +:+ pretty row_num +:+ ": " +:+ error].
Proof. reflexivity. Qed.

Lemma add_error_skipped_same table row_num error self :
  skipped_of (add_error table row_num error self) table = skipped_of self table + 1.
Proof.
  unfold skipped_of, add_error, dict_mem; simpl.
  rewrite dict_get_set_eq; simpl.
  destruct (dict_get (skipped_rows self) table) as [c|] eqn:E; simpl.
  - by rewrite E.
  - by rewrite dict_get_set_eq.
Qed.

Lemma add_error_skipped_other table row_num error self table' :
  table <> table' ->
  skipped_of (add_error table row_num error self) table' = skipped_of self table'.
Proof.
  intros Hne. unfold skipped_of, add_error, dict_mem; simpl.
  rewrite dict_get_set_ne by done.
  destruct (dict_get (skipped_rows self) table); simpl; [done|].
  by rewrite dict_get_set_ne.
Qed.

Lemma add_error_sum table row_num error self :
  dict_sum (skipped_rows (add_error table row_num error self))
  = dict_sum (skipped_rows self) + 1.
Proof.
  unfold add_error, dict_mem; simpl. rewrite dict_sum_set.
  destruct (dict_get (skipped_rows self) table) as [c|] eqn:E; simpl.
  - rewrite E; simpl. lia.
  - rewrite dict_get_set_eq, dict_sum_set, E; simpl. lia.
Qed.

Lemma apply_op_invariant self op :
  stats_invariant self -> stats_invariant (apply_op self op).
Proof.
  unfold stats_invariant. intros Hinv.
  destruct op as [table row_num error|n|]; cbn [apply_op].
  - rewrite add_error_sum, add_error_errors, length_app; simpl. lia.
  - exact Hinv.
  - exact Hinv.
Qed.

(** C9. From a fresh [MigrationStats], whatever operations follow, the
    number of recorded errors equals the sum of the skipped-row counts over
    all tables: [add_error] appends exactly one record and adds one to the
    count of its table and of no other, and the other operations touch
    neither the error list nor the counts. *)
Theorem stats_errors_match_skipped :
  (forall ops, stats_invariant (foldl apply_op MigrationStats_init ops))
  /\ (forall table row_num error self,
        length (errors (add_error table row_num error self)) = S (length (errors self))
        /\ skipped_of (add_error table row_num error self) table
           = skipped_of self table + 1
        /\ (forall table', table <> table' ->
              skipped_of (add_error table row_num error self) table'
              = skipped_of self table'))
  /\ (forall op self,
        (forall table row_num error, op <> OpAddError table row_num error) ->
        errors (apply_op self op) = errors self
        /\ skipped_rows (apply_op self op) = skipped_rows self).
Proof.
  split; [|split].
  - intros ops.
    assert (Hgen : forall self, stats_invariant self ->
                     stats_invariant (foldl apply_op self ops)).
    { induction ops as [|op ops IH]; intros self Hinv; simpl; [done|].
      apply IH, apply_op_invariant, Hinv. }
    apply Hgen. reflexivity.
  - intros table row_num error self. split; [|split].
    + rewrite add_error_errors, length_app; simpl. lia.
    + apply add_error_skipped_same.
    + intros table' Hne. by apply add_error_skipped_other.
  - intros op self Hop. destruct op as [table row_num error|n|]; simpl; [|done|done].
    by destruct (Hop table row_num error).
Qed.

(** ** Value conversion *)

(** Case analysis on membership in a list given by its elements. *)
Ltac in_cases H :=
  repeat (apply elem_of_cons in H; destruct H as [->|H]);
  try (by apply elem_of_nil in H).

Lemma boolean_rule_not_json table column :
  has_rule BOOLEAN_COLUMNS table column = true ->
  has_rule JSON_COLUMNS table column = false.
Proof.
  unfold has_rule at 1. unfold BOOLEAN_COLUMNS; cbn [dict_get].
  repeat (case_bool_decide;
          [subst table; intros Hc; apply bool_decide_eq_true_1 in Hc;
           in_cases Hc; reflexivity|]).
  discriminate.
Qed.

Lemma json_rule_not_boolean table column :
  has_rule JSON_COLUMNS table column = true ->
  has_rule BOOLEAN_COLUMNS table column = false.
Proof.
  intros Hj. destruct (has_rule BOOLEAN_COLUMNS table column) eqn:Hb; [|done].
  apply boolean_rule_not_json in Hb. congruence.
Qed.

Lemma py_bool_false_iff value :
  value <> PNone -> (py_bool value = false <-> zero_or_empty value).
Proof.
  intros Hnn. unfold zero_or_empty. split.
  - destruct value as [|b|z|f|s|b|l|d]; simpl; intros Hb.
    + done.
    + destruct b; [done|]. by left.
    + right; left. apply negb_false_iff, Z.eqb_eq in Hb. by subst.
    + right; right; left. destruct f; try done. by eexists.
    + do 3 right; left. apply negb_false_iff, String.eqb_eq in Hb. by subst.
    + do 4 right; left. by destruct b.
    + do 5 right; left. by destruct l.
    + do 6 right. by destruct d.
  - intros [->|[->|[[sign ->]|[->|[->|[->| ->]]]]]]; reflexivity.
Qed.

Lemma convert_value_boolean `{PyLib} table column value :
  has_rule BOOLEAN_COLUMNS table column = true ->
  convert_value table column value
  = Ok (if is_none value then PNone else PBool (py_bool value)).
Proof.
  intros Hb. unfold convert_value, convert_boolean. rewrite Hb.
  by destruct (is_none value).
Qed.

(** C7. On a column of the boolean rule set, null converts to null and
    every other value to its truthiness: false for a zero or empty value,
    true for anything else. In particular 0, 1, null, "", "x" convert to
    false, true, null, false, true. *)
Theorem boolean_rule_truthiness `{PyLib} table column :
  has_rule BOOLEAN_COLUMNS table column = true ->
  convert_value table column PNone = Ok PNone
  /\ (forall value, value <> PNone -> zero_or_empty value ->
        convert_value table column value = Ok (PBool false))
  /\ (forall value, value <> PNone -> ~ zero_or_empty value ->
        convert_value table column value = Ok (PBool true))
  /\ map (convert_value table column) [PInt 0; PInt 1; PNone; PStr ""; PStr "x"]
     = [Ok (PBool false); Ok (PBool true); Ok PNone; Ok (PBool false); Ok (PBool true)].
Proof.
  intros Hb. split; [|split; [|split]].
  - by rewrite convert_value_boolean.
  - intros value Hnn Hz. rewrite convert_value_boolean by done.
    apply py_bool_false_iff in Hz; [|done]. rewrite Hz.
    by destruct value.
  - intros value Hnn Hz. rewrite convert_value_boolean by done.
    destruct (py_bool value) eqn:E.
    + by destruct value.
    + apply py_bool_false_iff in E; done.
  - simpl. by rewrite !convert_value_boolean.
Qed.

Lemma boolean_rule_truthiness_witness :
  has_rule BOOLEAN_COLUMNS "users" "is_active" = true
  /\ map (@convert_value sample_lib "users" "is_active")
         [PInt 0; PInt 1; PNone; PStr ""; PStr "x"]
     = [Ok (PBool false); Ok (PBool true); Ok PNone; Ok (PBool false); Ok (PBool true)].
Proof.
  split; [reflexivity|].
  apply (@boolean_rule_truthiness sample_lib "users" "is_active"). reflexivity.
Defined.

Lemma convert_value_json `{PyLib} table column value :
  has_rule JSON_COLUMNS table column = true ->
  convert_value table column value = convert_json value.
Proof.
  intros Hj. unfold convert_value, convert_json.
  rewrite (json_rule_not_boolean _ _ Hj), Hj. by destruct (is_none value).
Qed.

Lemma convert_row_single `{PyLib} table column value :
  convert_row table [column] 0 [value]
  = result_bind (convert_value table column value) (fun v => Ok [v]).
Proof. simpl. by destruct (convert_value table column value). Qed.

(** C6, as the claim states it, fails: a text can fail to parse with an
    exception that [convert_json] does not catch. With a library that
    raises RecursionError on a text nested too deep, the text made of 2000
    opening brackets does not convert to null: the conversion raises, and
    the row that holds it is left out and recorded as a row error. *)
Lemma deep_text_is_a_row_error :
  @json_loads deep_lib deep_text = Raise recursion_error
  /\ @convert_value deep_lib "audit_logs" "details" (PStr deep_text) = Raise recursion_error
  /\ @convert_value deep_lib "audit_logs" "details" (PStr deep_text) <> Ok PNone
  /\ @convert_rows deep_lib "audit_logs" ["details"] 1 [[PStr deep_text]]
        (sample_world sample_dest)
      = (Ok [],
         with_stats (add_error "audit_logs" 1 (str_exn recursion_error))
           (sample_world sample_dest))
  /\ errors (stats (snd (@convert_rows deep_lib "audit_logs" ["details"] 1
                           [[PStr deep_text]] (sample_world sample_dest))))
      = ["  audit_logs row 1: maximum recursion depth exceeded while decoding a JSON array from a unicode string"].
Proof.
  assert (Hl : @json_loads deep_lib deep_text = Raise recursion_error) by (by vm_compute).
  assert (Hv : @convert_value deep_lib "audit_logs" "details" (PStr deep_text)
               = Raise recursion_error).
  { rewrite convert_value_json by reflexivity. unfold convert_json; cbn [is_none].
    rewrite Hl. reflexivity. }
  assert (Hr : @convert_rows deep_lib "audit_logs" ["details"] 1 [[PStr deep_text]]
                 (sample_world sample_dest)
               = (Ok [],
                  with_stats (add_error "audit_logs" 1 (str_exn recursion_error))
                    (sample_world sample_dest))).
  { cbn [convert_rows]. rewrite convert_row_single, Hv. reflexivity. }
  split; [exact Hl|]. split; [exact Hv|]. split; [by rewrite Hv|].
  split; [exact Hr|]. rewrite Hr. reflexivity.
Qed.

(** C6, amended. On a column of the structured-data rule set and for a
    value that is not null: a text that [json.loads] parses converts to the
    text [json.dumps] gives for the parsed value, which parses back to that
    same value; a text that [json.loads] rejects with JSONDecodeError (or
    with TypeError, the other class the handler names) converts to null,
    and a row holding it is converted with no error recorded; a value that
    is not a text converts to what [json.dumps] gives for it, [json.loads]
    taking no part. The json library is assumed to parse back what it has
    written. *)
Theorem structured_data_rule `{PyLib} table column :
  has_rule JSON_COLUMNS table column = true ->
  (forall s v out, json_loads s = Ok v -> json_dumps v = Ok out -> json_loads out = Ok v) ->
  (forall s parsed out,
     json_loads s = Ok parsed -> json_dumps parsed = Ok out ->
     convert_value table column (PStr s) = Ok (PStr out)
     /\ json_loads out = Ok parsed)
  /\ (forall s e,
        json_loads s = Raise e ->
        exn_cls e = JSONDecodeError \/ exn_cls e = TypeError ->
        convert_value table column (PStr s) = Ok PNone
        /\ forall row_num w,
             convert_rows table [column] row_num [[PStr s]] w = (Ok [[PNone]], w))
  /\ (forall value,
        value <> PNone -> (forall s, value <> PStr s) ->
        convert_value table column value
        = result_bind (json_dumps value) (fun r => Ok (PStr r))).
Proof.
  intros Hj Hlaw. split; [|split].
  - intros s parsed out Hl Hd. split; [|by eapply Hlaw].
    rewrite convert_value_json by done. unfold convert_json; cbn [is_none].
    rewrite Hl; cbn [result_bind]. by rewrite Hd.
  - intros s e Hl He.
    assert (Hv : convert_value table column (PStr s) = Ok PNone).
    { rewrite convert_value_json by done. unfold convert_json; cbn [is_none].
      rewrite Hl; cbn [result_bind result_except]. by destruct He as [-> | ->]. }
    split; [done|]. intros row_num w.
    cbn [convert_rows]. rewrite convert_row_single, Hv. reflexivity.
  - intros value Hnn Hns. rewrite convert_value_json by done.
    destruct value; try done. by destruct (Hns s).
Qed.

Lemma sample_json_parses_back s v out :
  sample_json_loads s = Ok v -> sample_json_dumps v = Ok out ->
  sample_json_loads out = Ok v.
Proof.
  unfold sample_json_loads, sample_json_texts; simpl.
  repeat case_bool_decide; intros Hl Hd; simplify_eq; simpl in Hd; simplify_eq;
    reflexivity.
Qed.

Lemma structured_data_rule_witness :
  @convert_value sample_lib "audit_logs" "details" (PStr "{ }") = Ok (PStr "{}")
  /\ @json_loads sample_lib "{}" = Ok (PDict []).
Proof.
  apply (@structured_data_rule sample_lib "audit_logs" "details" eq_refl
           sample_json_parses_back); reflexivity.
Defined.

(** ** Conversion of the rows of a table *)

Lemma with_stats_id w : with_stats (fun self => self) w = w.
Proof. by destruct w. Qed.

Lemma convert_rows_eq `{PyLib} table columns rows row_num w :
  convert_rows table columns row_num rows w
  = (Ok (converted_rows_of table columns rows),
     with_stats (record_row_errors table columns row_num rows) w).
Proof.
  revert row_num w. induction rows as [|row rows IH]; intros row_num w.
  - simpl. by rewrite with_stats_id.
  - cbn [convert_rows converted_rows_of omap list_omap record_row_errors].
    destruct (convert_row table columns 0 row) as [converted_row|e].
    + unfold bind. rewrite IH. reflexivity.
    + unfold bind, modify_stats. rewrite IH. reflexivity.
Qed.

Lemma record_row_errors_app `{PyLib} table columns rows1 rows2 row_num self :
  record_row_errors table columns row_num (rows1 ++ rows2) self
  = record_row_errors table columns (row_num + Z.of_nat (length rows1)) rows2
      (record_row_errors table columns row_num rows1 self).
Proof.
  revert row_num self. induction rows1 as [|row rows1 IH]; intros row_num self.
  - simpl. by rewrite Z.add_0_r.
  - cbn [app record_row_errors length]. rewrite IH. f_equal. lia.
Qed.

Lemma record_row_errors_all_good `{PyLib} table columns rows row_num self :
  Forall (fun row => exists c, convert_row table columns 0 row = Ok c) rows ->
  record_row_errors table columns row_num rows self = self.
Proof.
  intros Hall. revert row_num. induction Hall as [|row rows [c Hc] _ IH]; intros row_num.
  - done.
  - cbn [record_row_errors]. by rewrite Hc, IH.
Qed.

Lemma converted_rows_of_all_good `{PyLib} table columns rows :
  Forall (fun row => exists c, convert_row table columns 0 row = Ok c) rows ->
  Forall2 (fun row c => convert_row table columns 0 row = Ok c)
          rows (converted_rows_of table columns rows).
Proof.
  induction 1 as [|row rows [c Hc] _ IH].
  - constructor.
  - unfold converted_rows_of. cbn [omap list_omap]. rewrite Hc. by constructor.
Qed.

Lemma converted_rows_of_app `{PyLib} table columns rows1 rows2 :
  converted_rows_of table columns (rows1 ++ rows2)
  = converted_rows_of table columns rows1 ++ converted_rows_of table columns rows2.
Proof. apply omap_app. Qed.

(** ** Statements on the destination *)

Section DestinationFacts.
Context `{PgSchema}.

Lemma set_tables_same s : set_tables (db_tables s) s = s.
Proof. by destruct s. Qed.

Lemma run_stmt_insert table columns row s stored :
  db_tables s !! table = Some stored ->
  accepted table columns row ->
  exists cur,
    run_stmt (InsertOnConflictDoNothing table columns row) s
    = Ok (cur, set_tables (<[table := insert_row table columns stored row]> (db_tables s)) s)
    /\ rowcount cur
       = Z.of_nat (length (insert_row table columns stored row)) - Z.of_nat (length stored).
Proof.
  intros Ht [Hlen Ha]. unfold run_stmt, insert_row.
  rewrite Hlen, Nat.compare_refl, Ht, Ha.
  destruct (existsb _ stored).
  - eexists; split; [by rewrite insert_id, set_tables_same|simpl; lia].
  - eexists; split; [done|]. rewrite length_app; simpl. lia.
Qed.

Lemma run_stmt_insert_keeps table columns row s cur s' :
  run_stmt (InsertOnConflictDoNothing table columns row) s = Ok (cur, s') ->
  db_sequences s' = db_sequences s
  /\ session_replication_role s' = session_replication_role s
  /\ forall table', table' <> table -> db_tables s' !! table' = db_tables s !! table'.
Proof.
  unfold run_stmt. destruct (length row ?= length columns)%nat; [|done|done].
  destruct (db_tables s !! table) as [stored|]; [|done].
  destruct (accepts table columns row); [|done].
  destruct (existsb _ stored); intros [= <- <-]; [done|].
  repeat split. intros table' Hne. simpl. by rewrite lookup_insert_ne.
Qed.

(** A failed statement leaves a failed transaction; in a failed
    transaction every statement fails. *)
Lemma pg_execute_failed stmt c :
  tx_failed c = true ->
  exists e, pg_execute stmt c = (Raise e, c) /\ exn_cls e = InFailedSqlTransaction.
Proof. intros Hf. unfold pg_execute. rewrite Hf. by eexists. Qed.

Lemma pg_execute_raise stmt c e c' :
  pg_execute stmt c = (Raise e, c') ->
  tx_failed c' = true /\ committed c' = committed c.
Proof.
  unfold pg_execute. destruct (tx_failed c) eqn:Hf.
  - by intros [= <- <-].
  - destruct (run_stmt stmt (current c)) as [[cur s']|e']; [done|].
    by intros [= <- <-].
Qed.

Lemma pg_execute_ok stmt c cur c' :
  pg_execute stmt c = (Ok cur, c') ->
  tx_failed c = false /\ tx_failed c' = false /\ committed c' = committed c
  /\ run_stmt stmt (current c) = Ok (cur, current c').
Proof.
  unfold pg_execute. destruct (tx_failed c) eqn:Hf; [done|].
  destruct (run_stmt stmt (current c)) as [[cur0 s']|e']; [|done].
  by intros [= <- <-].
Qed.

End DestinationFacts.

Lemma pg_rollback_clean c : clean (pg_rollback c).
Proof. done. Qed.

Lemma pg_commit_clean c : clean (pg_commit c).
Proof. unfold pg_commit. by destruct (tx_failed c). Qed.

Lemma pg_rollback_committed c : committed (pg_rollback c) = committed c.
Proof. done. Qed.

(** ** The batch insert *)

Section BatchFacts.
Context `{PyLib} `{PgSchema}.

(** [executemany] works on the connection alone. *)
Lemma executemany_frame table columns rows count w :
  exists r c,
    executemany table columns rows count w = (r, with_pg (fun _ => c) w)
    /\ committed c = committed (pg w)
    /\ (forall e, r = Raise e -> tx_failed c = true).
Proof.
  revert count w. induction rows as [|row rows IH]; intros count w.
  - exists (Ok count), (pg w). destruct w; done.
  - cbn [executemany]. unfold bind, execute.
    destruct (pg_execute _ (pg w)) as [[cur|e] c] eqn:Hx.
    + destruct (IH (count + rowcount cur) (with_pg (fun _ => c) w)) as (r & c' & -> & Hc & Hr).
      exists r, c'. repeat split; [|done].
      simpl in Hc. rewrite Hc. by apply pg_execute_ok in Hx as (_ & _ & -> & _).
    + exists (Raise e), c. apply pg_execute_raise in Hx as [Hf Hc].
      repeat split; done.
Qed.

(** A batch whose rows the table accepts inserts those that collide with
    no stored row, and counts them. *)
Lemma executemany_ok table columns rows count w stored :
  tx_failed (pg w) = false ->
  db_tables (current (pg w)) !! table = Some stored ->
  Forall (accepted table columns) rows ->
  executemany table columns rows count w
  = (Ok (count + (Z.of_nat (length (insert_rows table columns rows stored))
                  - Z.of_nat (length stored))),
     with_pg (fun c =>
       {| committed := committed c;
          current := set_tables (<[table := insert_rows table columns rows stored]>
                                   (db_tables (current c))) (current c);
          tx_failed := false |}) w).
Proof.
  intros Hf Ht Hall. revert count w stored Hf Ht.
  induction Hall as [|row rows Ha _ IH]; intros count w stored Hf Ht.
  - destruct w as [st [cm cu fl]]; simpl in *. subst fl.
    unfold ret, with_pg, insert_rows; simpl.
    rewrite insert_id, set_tables_same by done. do 2 f_equal. lia.
  - cbn [executemany]. unfold bind, execute, pg_execute. rewrite Hf.
    destruct (run_stmt_insert table columns row _ stored Ht Ha) as (cur & -> & Hcount).
    rewrite (IH _ _ (insert_row table columns stored row)); simpl.
    + rewrite Hcount. unfold insert_rows; simpl. f_equal; [f_equal; lia|].
      unfold with_pg; simpl. by rewrite insert_insert_eq.
    + done.
    + by rewrite lookup_insert_eq.
Qed.

End BatchFacts.

Section MigrateTableFacts.
Context `{PyLib} `{PgSchema}.

(** The two ways a batch ends. *)
Lemma batch_insert_eq table columns converted_rows w :
  batch_insert table columns converted_rows w
  = match executemany table columns converted_rows 0 w with
    | (Ok rows_inserted, w1) =>
        (Ok rows_inserted,
         with_stats (add_total_rows rows_inserted)
           (with_line ("  ✓ " +:+ table +:+ ": " +:+ pretty rows_inserted +:+ " rows migrated")
              (with_pg pg_commit w1)))
    | (Raise e, w1) =>
        (Ok 0,
         with_line ("  ✗ " +:+ table +:+ ": Batch insert failed - " +:+ str_exn e)
           (with_stats (add_error table 0 ("Batch insert failed: " +:+ str_exn e))
              (with_pg pg_rollback w1)))
    end.
Proof.
  unfold batch_insert, try_except, bind.
  by destruct (executemany table columns converted_rows 0 w) as [[n|e] w1].
Qed.

(** Whatever happens to the batch, [batch_insert] returns, with the
    connection between two transactions and the committed state changed
    only by a batch that succeeded. *)
Lemma batch_insert_returns table columns converted_rows w :
  exists n w',
    batch_insert table columns converted_rows w = (Ok n, w')
    /\ clean (pg w')
    /\ tables_migrated (stats w') = tables_migrated (stats w).
Proof.
  rewrite batch_insert_eq.
  destruct (executemany_frame table columns converted_rows 0 w) as (r & c & -> & _ & _).
  destruct r as [n|e]; do 2 eexists; (split; [reflexivity|]); split; try done.
  apply pg_commit_clean.
Qed.

(** [migrate_table], path by path. *)
Lemma migrate_table_eq sqlite_conn table w :
  migrate_table sqlite_conn table w
  = let failed e :=
      (Ok 0,
       with_line ("  ✗ " +:+ table +:+ ": " +:+ str_exn e)
         (with_stats (add_error table 0 ("Table migration failed: " +:+ str_exn e)) w)) in
    match get_table_columns sqlite_conn table with
    | Raise e => failed e
    | Ok [] =>
        (Ok 0, with_line ("  ⚠️  Table '" +:+ table +:+ "' not found in SQLite, skipping") w)
    | Ok columns =>
        match select_all sqlite_conn table with
        | Raise e => failed e
        | Ok [] => (Ok 0, with_line ("  ✓ " +:+ table +:+ ": 0 rows") w)
        | Ok rows =>
            let w1 := with_stats (record_row_errors table columns 1 rows) w in
            match converted_rows_of table columns rows with
            | [] =>
                (Ok 0,
                 with_line ("  ✓ " +:+ table +:+ ": 0 rows (all skipped due to errors)") w1)
            | converted_rows => batch_insert table columns converted_rows w1
            end
        end
    end.
Proof.
  unfold migrate_table, try_except, bind, lift; cbn zeta.
  destruct (get_table_columns sqlite_conn table) as [[|column columns]|e]; try reflexivity.
  destruct (select_all sqlite_conn table) as [[|row rows]|e]; try reflexivity.
  rewrite convert_rows_eq.
  destruct (converted_rows_of table (column :: columns) (row :: rows))
    as [|converted_row converted_rows]; [reflexivity|].
  destruct (batch_insert_returns table (column :: columns)
              (converted_row :: converted_rows)
              (with_stats (record_row_errors table (column :: columns) 1 (row :: rows)) w))
    as (n & w' & -> & _).
  reflexivity.
Qed.

Lemma record_row_errors_tables_migrated table columns rows row_num self :
  tables_migrated (record_row_errors table columns row_num rows self)
  = tables_migrated self.
Proof.
  revert row_num self. induction rows as [|row rows IH]; intros row_num self; [done|].
  cbn [record_row_errors]. rewrite IH. by destruct (convert_row table columns 0 row).
Qed.

(** [migrate_table] never raises, and leaves [tables_migrated] alone. *)
Lemma migrate_table_returns sqlite_conn table w :
  exists n w',
    migrate_table sqlite_conn table w = (Ok n, w')
    /\ tables_migrated (stats w') = tables_migrated (stats w).
Proof.
  rewrite migrate_table_eq; cbn zeta.
  destruct (get_table_columns sqlite_conn table) as [[|column columns]|e];
    [by do 2 eexists| |by do 2 eexists].
  destruct (select_all sqlite_conn table) as [[|row rows]|e];
    [by do 2 eexists| |by do 2 eexists].
  destruct (converted_rows_of table (column :: columns) (row :: rows))
    as [|converted_row converted_rows].
  - do 2 eexists; split; [reflexivity|]. apply record_row_errors_tables_migrated.
  - destruct (batch_insert_returns table (column :: columns)
                (converted_row :: converted_rows)
                (with_stats (record_row_errors table (column :: columns) 1 (row :: rows)) w))
      as (n & w' & -> & _ & Htm).
    do 2 eexists; split; [reflexivity|]. rewrite Htm.
    apply record_row_errors_tables_migrated.
Qed.

End MigrateTableFacts.

(** C5. In a table of N rows of which exactly one fails to convert, the
    N-1 others are converted, in order, and are the rows handed to the
    batch insert; exactly one error is recorded, naming the table and the
    1-based index of the failing row; the rows after the failing one are
    converted all the same. *)
Theorem one_bad_row_is_left_out `{PyLib} `{PgSchema}
    sqlite_conn table columns before bad after e w :
  get_table_columns sqlite_conn table = Ok columns ->
  columns <> [] ->
  select_all sqlite_conn table = Ok (before ++ bad :: after) ->
  Forall (fun row => exists c, convert_row table columns 0 row = Ok c) (before ++ after) ->
  convert_row table columns 0 bad = Raise e ->
  exists converted_rows,
    length converted_rows = (length (before ++ bad :: after) - 1)%nat
    /\ Forall2 (fun row c => convert_row table columns 0 row = Ok c)
               (before ++ after) converted_rows
    /\ let w1 :=
         with_stats (add_error table (Z.of_nat (length before) + 1) (str_exn e)) w in
       convert_rows table columns 1 (before ++ bad :: after) w = (Ok converted_rows, w1)
       /\ errors (stats w1)
          = errors (stats w)
            ++ ["  " +:+ table +:+ " row " +:+ pretty (Z.of_nat (length before) + 1)
                +:+ ": " +:+ str_exn e]
       /\ migrate_table sqlite_conn table w
          = match converted_rows with
            | [] =>
                (Ok 0,
                 with_line ("  ✓ " +:+ table +:+ ": 0 rows (all skipped due to errors)") w1)
            | _ => batch_insert table columns converted_rows w1
            end.
Proof.
  intros Hcols Hne Hrows Hgood Hbad.
  apply Forall_app in Hgood as [Hbefore Hafter].
  assert (Hconv : converted_rows_of table columns (before ++ bad :: after)
                  = converted_rows_of table columns (before ++ after)).
  { rewrite !converted_rows_of_app. f_equal.
    unfold converted_rows_of at 1. cbn [omap list_omap]. by rewrite Hbad. }
  assert (Hstats : forall self,
            record_row_errors table columns 1 (before ++ bad :: after) self
            = add_error table (Z.of_nat (length before) + 1) (str_exn e) self).
  { intros self. rewrite record_row_errors_app.
    rewrite (record_row_errors_all_good _ _ before) by done.
    cbn [record_row_errors]. rewrite Hbad.
    rewrite record_row_errors_all_good by done. f_equal. lia. }
  assert (Hall : Forall2 (fun row c => convert_row table columns 0 row = Ok c)
                   (before ++ after) (converted_rows_of table columns (before ++ after))).
  { apply converted_rows_of_all_good, Forall_app. done. }
  exists (converted_rows_of table columns (before ++ after)).
  split; [|split; [done|]].
  { rewrite <- (Forall2_length _ _ _ Hall), !length_app. simpl. lia. }
  cbn zeta. split; [|split].
  - rewrite convert_rows_eq, Hconv. f_equal. unfold with_stats. by rewrite Hstats.
  - reflexivity.
  - rewrite migrate_table_eq; cbn zeta. rewrite Hcols, Hrows.
    destruct columns as [|column columns]; [done|].
    assert (Hw : with_stats (record_row_errors table (column :: columns) 1
                               (before ++ bad :: after)) w
                 = with_stats (add_error table (Z.of_nat (length before) + 1) (str_exn e)) w).
    { unfold with_stats. by rewrite Hstats. }
    remember (before ++ bad :: after) as rows eqn:Hrs.
    destruct rows as [|row rows]; [by destruct before|].
    rewrite Hconv, Hw.
    by destruct (converted_rows_of table (column :: columns) (before ++ after)).
Qed.

Lemma one_bad_row_is_left_out_witness :
  exists converted_rows,
    length converted_rows = 2%nat
    /\ @convert_rows sample_lib "audit_logs" ["id"; "details"] 1
         [[PInt 1; PStr "{ }"]; [PInt 2; PBytes [Byte.x00]]; [PInt 3; PStr "not json"]]
         (sample_world sample_dest)
       = (Ok converted_rows,
          with_stats (add_error "audit_logs" 2 "Object of type bytes is not JSON serializable")
            (sample_world sample_dest)).
Proof.
  destruct (@one_bad_row_is_left_out sample_lib sample_schema sample_source
              "audit_logs" ["id"; "details"]
              [[PInt 1; PStr "{ }"]] [PInt 2; PBytes [Byte.x00]] [[PInt 3; PStr "not json"]]
              (Exn TypeError "Object of type bytes is not JSON serializable")
              (sample_world sample_dest))
    as (converted_rows & Hlen & _ & Hconv & _).
  - reflexivity.
  - discriminate.
  - reflexivity.
  - repeat constructor; eexists; reflexivity.
  - reflexivity.
  - exists converted_rows. split; [exact Hlen | exact Hconv].
Defined.

(** ** Loops *)

Lemma for_each_app {A} (l1 l2 : list A) (body : A -> M unit) w :
  for_each (l1 ++ l2) body w
  = match for_each l1 body w with
    | (Ok _, w1) => for_each l2 body w1
    | (Raise e, w1) => (Raise e, w1)
    end.
Proof.
  revert w. induction l1 as [|x l1 IH]; intros w; [done|].
  cbn [app for_each]. unfold bind.
  destruct (body x w) as [[[]|e] w1]; [apply IH|done].
Qed.

Lemma for_each_print lines w :
  exists w', for_each lines print w = (Ok tt, w')
             /\ stats w' = stats w /\ pg w' = pg w.
Proof.
  revert w. induction lines as [|line lines IH]; intros w; [by exists w|].
  cbn [for_each]. unfold bind.
  change (print line w) with (Ok tt, with_line line w); cbn iota.
  destruct (IH (with_line line w)) as (w' & -> & Hs & Hp). by exists w'.
Qed.

(** ** Sequence repair *)

Section SequenceFacts.
Context `{PyLib} `{PgSchema}.

Lemma pg_max_cases col rows :
  pg_max col rows = PNone \/ exists z, pg_max col rows = PInt z.
Proof. unfold pg_max. destruct (omap _ rows); [by left|right; by eexists]. Qed.

Lemma pg_max_falsy col rows :
  py_bool (pg_max col rows) = false
  <-> pg_max col rows = PNone \/ pg_max col rows = PInt 0.
Proof.
  destruct (pg_max_cases col rows) as [->|[z ->]]; simpl.
  - split; [by left|done].
  - rewrite negb_false_iff, Z.eqb_eq. split.
    + intros ->. by right.
    + by intros [|[= ->]].
Qed.

(** The statistics are out of the reach of [reset_sequences]. *)
Lemma repair_sequence_stats table col w r w' :
  repair_sequence table col w = (r, w') -> stats w' = stats w.
Proof.
  unfold repair_sequence, bind, execute, modify_pg, print, ret.
  destruct (pg_execute _ (pg w)) as [[cur|e] c]; [|by intros [= <- <-]].
  destruct (py_bool (fetchone0 cur)); [|by intros [= <- <-]].
  simpl. destruct (pg_execute _ c) as [[cur'|e] c']; by intros [= <- <-].
Qed.

Lemma reset_sequence_eq table col w :
  reset_sequence table col w
  = match repair_sequence table col w with
    | (Ok _, w') => (Ok tt, w')
    | (Raise e, w') =>
        (Ok tt,
         with_line ("  ⚠️  Could not reset " +:+ seq_name_of table col +:+ ": " +:+ str_exn e)
           w')
    end.
Proof.
  unfold reset_sequence, try_except, print.
  by destruct (repair_sequence table col w) as [[[]|e] w'].
Qed.

Lemma reset_sequence_returns table col w :
  exists w', reset_sequence table col w = (Ok tt, w') /\ stats w' = stats w.
Proof.
  rewrite reset_sequence_eq.
  destruct (repair_sequence table col w) as [[[]|e] w'] eqn:Hr;
    apply repair_sequence_stats in Hr; by eexists.
Qed.

Lemma reset_sequences_loop_returns items w :
  exists w',
    for_each items (fun item => reset_sequence (fst item) (snd item)) w = (Ok tt, w')
    /\ stats w' = stats w.
Proof.
  revert w. induction items as [|[table col] items IH]; intros w; [by exists w|].
  cbn [for_each]. unfold bind. cbn beta; cbn [fst snd].
  destruct (reset_sequence_returns table col w) as (w1 & -> & Hs1).
  destruct (IH w1) as (w' & -> & Hs). exists w'. by rewrite Hs.
Qed.

Lemma reset_sequences_returns w :
  exists w', reset_sequences w = (Ok tt, w') /\ stats w' = stats w.
Proof.
  unfold reset_sequences, bind, print.
  destruct (reset_sequences_loop_returns SERIAL_COLUMNS
              (with_line (newline +:+ "Resetting sequences...") w)) as (w' & -> & Hs).
  by exists w'.
Qed.

End SequenceFacts.

(** ** The run *)

Section RunFacts.
Context `{PyLib} `{PgSchema}.

Lemma migrate_tables_cons sqlite_conn table order w :
  migrate_tables sqlite_conn (table :: order) w
  = migrate_tables sqlite_conn order
      (with_stats incr_tables_migrated (snd (migrate_table sqlite_conn table w))).
Proof.
  unfold migrate_tables. cbn [for_each]. unfold bind, modify_stats.
  destruct (migrate_table_returns sqlite_conn table w) as (n & w1 & -> & _).
  reflexivity.
Qed.

Lemma migrate_tables_app sqlite_conn order1 order2 w :
  migrate_tables sqlite_conn (order1 ++ order2) w
  = migrate_tables sqlite_conn order2 (snd (migrate_tables sqlite_conn order1 w)).
Proof.
  revert w. induction order1 as [|table order1 IH]; intros w; [done|].
  cbn [app]. by rewrite !migrate_tables_cons, IH.
Qed.

(** The loop over the plan never raises and counts every table of it. *)
Lemma migrate_tables_returns sqlite_conn order w :
  exists w',
    migrate_tables sqlite_conn order w = (Ok tt, w')
    /\ tables_migrated (stats w')
       = tables_migrated (stats w) + Z.of_nat (length order).
Proof.
  revert w. induction order as [|table order IH]; intros w.
  - exists w. split; [done|]. simpl. lia.
  - rewrite migrate_tables_cons.
    destruct (migrate_table_returns sqlite_conn table w) as (n & w1 & Hm & Htm).
    rewrite Hm; cbn [snd].
    destruct (IH (with_stats incr_tables_migrated w1)) as (w' & -> & Htm').
    exists w'. split; [done|]. rewrite Htm'. cbn [length]. simpl. lia.
Qed.

Lemma disable_fk_checks_eq w :
  tx_failed (pg w) = false ->
  disable_fk_checks w
  = (Ok tt,
     with_line "✓ FK checks disabled for migration session"
       (with_pg (fun c => connect (set_role Replica (current c))) w)).
Proof.
  intros Hf. unfold disable_fk_checks, bind, execute, pg_execute, modify_pg, print.
  rewrite Hf. reflexivity.
Qed.

Lemma enable_fk_checks_eq w :
  enable_fk_checks w
  = if tx_failed (pg w) then
      (Raise (Exn InFailedSqlTransaction
                "current transaction is aborted, commands ignored until end of transaction block"),
       w)
    else
      (Ok tt,
       with_line "✓ FK checks re-enabled"
         (with_pg (fun c => connect (set_role Origin (current c))) w)).
Proof.
  unfold enable_fk_checks, bind, execute, pg_execute, modify_pg, print.
  destruct (tx_failed (pg w)) eqn:Hf; [|reflexivity].
  destruct w as [st c out]; reflexivity.
Qed.

(** The run, phase by phase: the three first phases always return; the
    fourth raises exactly when the repair of the sequences left a failed
    transaction behind. *)
Lemma main_connected_phases sqlite_conn w :
  tx_failed (pg w) = false ->
  exists w1 w2 w3,
    disable_fk_checks w = (Ok tt, w1)
    /\ migrate_tables sqlite_conn MIGRATION_ORDER
         (with_line (str_mul "-" 60) (with_line (newline +:+ "Migrating tables...") w1))
       = (Ok tt, w2)
    /\ reset_sequences w2 = (Ok tt, w3)
    /\ stats w3 = stats w2
    /\ ((tx_failed (pg w3) = true
         /\ exists e, main_connected sqlite_conn w = (Raise e, w3)
                      /\ exn_cls e = InFailedSqlTransaction)
        \/ (tx_failed (pg w3) = false
            /\ exists w',
                 main_connected sqlite_conn w
                 = (Ok (match errors (stats w3) with [] => 0 | _ => 1 end), w')
                 /\ stats w' = stats w3
                 /\ pg w' = connect (set_role Origin (current (pg w3))))).
Proof.
  intros Hf.
  pose proof (disable_fk_checks_eq w Hf) as Hd.
  destruct (disable_fk_checks w) as [r1 w1]. injection Hd as -> Hw1.
  destruct (migrate_tables_returns sqlite_conn MIGRATION_ORDER
              (with_line (str_mul "-" 60)
                 (with_line (newline +:+ "Migrating tables...") w1))) as (w2 & Hm & _).
  destruct (reset_sequences_returns w2) as (w3 & Hr & Hs3).
  exists w1, w2, w3. do 4 (split; [done|]).
  assert (Hmain : main_connected sqlite_conn w
                  = (run enable_fk_checks;
                     run modify_pg pg_close;
                     do w <- (fun w => (Ok w, w));
                     run for_each (print_summary (stats w)) print;
                     match errors (stats w) with
                     | [] =>
                         run print (newline +:+ "✓ Migration completed successfully!");
                         ret 0
                     | _ => ret 1
                     end) w3).
  { unfold main_connected. unfold bind at 1. rewrite (disable_fk_checks_eq w Hf), <- Hw1.
    unfold bind at 1. unfold print at 1. unfold bind at 1. unfold print at 1.
    unfold bind at 1. rewrite Hm. unfold bind at 1. rewrite Hr. reflexivity. }
  rewrite Hmain. clear Hmain.
  destruct (tx_failed (pg w3)) eqn:Hf3.
  - left. split; [done|]. unfold bind at 1. rewrite enable_fk_checks_eq, Hf3.
    by eexists.
  - right. split; [done|]. unfold bind, modify_pg.
    rewrite enable_fk_checks_eq, Hf3.
    match goal with |- context [for_each ?lines print ?w0] =>
      destruct (for_each_print lines w0) as (w5 & -> & Hs5 & Hp5)
    end.
    cbn [stats with_pg with_line].
    destruct (errors (stats w3)) as [|err errs].
    + unfold print, ret. eexists. split; [reflexivity|].
      cbn [stats pg with_line]. by rewrite Hs5, Hp5.
    + unfold ret. eexists. split; [reflexivity|]. by rewrite Hs5, Hp5.
Qed.

(** A run that has its two connections is [main_connected] on a new
    connection and new statistics. *)
Lemma main_session env st c :
  session (main env) = Some (st, c) ->
  exists sqlite_conn db out0 r w',
    main_connected sqlite_conn
      {| stats := MigrationStats_init; pg := connect db; stdout := out0 |} = (r, w')
    /\ st = stats w' /\ c = pg w'
    /\ ending (main env)
       = match r with Ok code => SysExit code | Raise e => Uncaught e end.
Proof.
  unfold main.
  destruct (if str_truthy (args_sqlite env) then _ else _) as [sqlite_path|]; [|done].
  destruct (negb (str_truthy _)); [done|].
  destruct (negb (os_path_exists env sqlite_path)); [done|].
  destruct (sqlite3_connect env sqlite_path) as [sqlite_conn|e]; [|done].
  destruct (psycopg2_connect env _) as [db|e]; [|done].
  match goal with |- context [main_connected sqlite_conn ?w0] =>
    destruct (main_connected sqlite_conn w0) as [r w'] eqn:Hm
  end.
  cbn [session ending]. intros [= <- <-].
  do 5 eexists. split; [exact Hm|done].
Qed.

End RunFacts.

(** ** What a table's migration leaves alone *)

Section FrameFacts.
Context `{PyLib} `{PgSchema}.

Lemma executemany_keeps table columns rows count w n w' :
  executemany table columns rows count w = (Ok n, w') ->
  tx_failed (pg w') = tx_failed (pg w)
  /\ committed (pg w') = committed (pg w)
  /\ db_sequences (current (pg w')) = db_sequences (current (pg w))
  /\ session_replication_role (current (pg w'))
     = session_replication_role (current (pg w))
  /\ forall table', table' <> table ->
       db_tables (current (pg w')) !! table' = db_tables (current (pg w)) !! table'.
Proof.
  revert count w. induction rows as [|row rows IH]; intros count w.
  - by intros [= <- <-].
  - cbn [executemany]. unfold bind, execute.
    destruct (pg_execute _ (pg w)) as [[cur|e] c] eqn:Hx; [|done].
    intros Hrest. apply IH in Hrest as (Hf & Hc & Hq & Hr & Ht). simpl in *.
    apply pg_execute_ok in Hx as (Hf0 & Hf1 & Hc1 & Hrun).
    apply run_stmt_insert_keeps in Hrun as (Hq1 & Hr1 & Ht1).
    rewrite Hf, Hc, Hq, Hr. repeat split; try congruence.
    intros table' Hne. rewrite Ht by done. by apply Ht1.
Qed.

(** Between two transactions, migrating a table keeps the connection
    between two transactions, and changes neither the session's
    replication role, nor a sequence, nor another table. *)
Lemma batch_insert_keeps table columns converted_rows w :
  clean (pg w) ->
  let w' := snd (batch_insert table columns converted_rows w) in
  clean (pg w')
  /\ session_replication_role (committed (pg w'))
     = session_replication_role (committed (pg w))
  /\ db_sequences (committed (pg w')) = db_sequences (committed (pg w))
  /\ forall table', table' <> table ->
       db_tables (committed (pg w')) !! table' = db_tables (committed (pg w)) !! table'.
Proof.
  intros [Hcur Hf]. cbn zeta. rewrite batch_insert_eq.
  destruct (executemany table columns converted_rows 0 w) as [[n|e] w1] eqn:Hx.
  - apply executemany_keeps in Hx as (Hf1 & Hc1 & Hq1 & Hr1 & Ht1).
    cbn [snd pg with_stats with_line with_pg]. unfold pg_commit.
    rewrite Hf1, Hf. cbn [committed]. rewrite Hq1, Hr1, Hcur.
    repeat split. intros table' Hne. rewrite Ht1 by done. by rewrite Hcur.
  - destruct (executemany_frame table columns converted_rows 0 w)
      as (r & c & Hx' & Hc & _).
    rewrite Hx in Hx'. injection Hx' as <- ->.
    cbn [snd pg with_stats with_line with_pg pg_rollback committed].
    rewrite Hc. repeat split.
Qed.

Lemma migrate_table_keeps sqlite_conn table w :
  clean (pg w) ->
  let w' := snd (migrate_table sqlite_conn table w) in
  clean (pg w')
  /\ session_replication_role (committed (pg w'))
     = session_replication_role (committed (pg w))
  /\ db_sequences (committed (pg w')) = db_sequences (committed (pg w))
  /\ forall table', table' <> table ->
       db_tables (committed (pg w')) !! table' = db_tables (committed (pg w)) !! table'.
Proof.
  intros Hclean. cbn zeta. rewrite migrate_table_eq; cbn zeta.
  destruct (get_table_columns sqlite_conn table) as [[|column columns]|e]; [done| |done].
  destruct (select_all sqlite_conn table) as [[|row rows]|e]; [done| |done].
  destruct (converted_rows_of table (column :: columns) (row :: rows))
    as [|converted_row converted_rows]; [done|].
  by apply (batch_insert_keeps table (column :: columns) (converted_row :: converted_rows)
              (with_stats (record_row_errors table (column :: columns) 1 (row :: rows)) w)).
Qed.

Lemma migrate_tables_keeps sqlite_conn order w :
  clean (pg w) ->
  let w' := snd (migrate_tables sqlite_conn order w) in
  clean (pg w')
  /\ session_replication_role (committed (pg w'))
     = session_replication_role (committed (pg w))
  /\ db_sequences (committed (pg w')) = db_sequences (committed (pg w)).
Proof.
  revert w. induction order as [|table order IH]; intros w Hclean; [done|].
  cbn zeta. rewrite migrate_tables_cons.
  destruct (migrate_table_keeps sqlite_conn table w Hclean) as (Hc1 & Hr1 & Hq1 & _).
  destruct (IH (with_stats incr_tables_migrated (snd (migrate_table sqlite_conn table w))) Hc1)
    as (Hc & Hr & Hq).
  cbn zeta in Hc, Hr, Hq. by rewrite Hr, Hq.
Qed.

End FrameFacts.

(** C10. A run that has its two connections ends with [tables_migrated]
    equal to the length of the plan, 20, whether it ends by [sys.exit] or
    not: [migrate_table] returns on every path (table missing from the
    source, no row, no converted row, batch refused, reading failed)
    without touching the counter, and the loop adds one after each
    table. *)
Theorem every_planned_table_is_counted `{PyLib} `{PgSchema} :
  (forall env st c,
     session (main env) = Some (st, c) ->
     tables_migrated st = Z.of_nat (length MIGRATION_ORDER)
     /\ tables_migrated st = 20)
  /\ (forall sqlite_conn order w,
        exists w',
          migrate_tables sqlite_conn order w = (Ok tt, w')
          /\ tables_migrated (stats w')
             = tables_migrated (stats w) + Z.of_nat (length order))
  /\ (forall sqlite_conn table w,
        exists n w',
          migrate_table sqlite_conn table w = (Ok n, w')
          /\ tables_migrated (stats w') = tables_migrated (stats w)).
Proof.
  split; [|split].
  - intros env st c Hs.
    apply main_session in Hs as (sqlite_conn & db & out0 & r & w' & Hmain & -> & _ & _).
    enough (tables_migrated (stats w') = 20) by done.
    destruct (main_connected_phases sqlite_conn
                {| stats := MigrationStats_init; pg := connect db; stdout := out0 |} eq_refl)
      as (w1 & w2 & w3 & Hd & Hm & _ & Hs3 & Hend).
    rewrite disable_fk_checks_eq in Hd by done. injection Hd as <-.
    destruct (migrate_tables_returns sqlite_conn MIGRATION_ORDER
                (with_line (str_mul "-" 60)
                   (with_line (newline +:+ "Migrating tables...")
                      (with_line "✓ FK checks disabled for migration session"
                         (with_pg (fun c => connect (set_role Replica (current c)))
                            {| stats := MigrationStats_init; pg := connect db;
                               stdout := out0 |})))))
      as (w2' & Hm' & Htm).
    rewrite Hm in Hm'. injection Hm' as <-.
    assert (Htm3 : tables_migrated (stats w3) = 20) by (rewrite Hs3, Htm; reflexivity).
    destruct Hend as [(_ & e & Hr & _)|(_ & w'' & Hr & Hs' & _)];
      rewrite Hmain in Hr; injection Hr as _ <-; congruence.
  - apply migrate_tables_returns.
  - apply migrate_table_returns.
Qed.

Lemma every_planned_table_is_counted_witness :
  exists st c,
    session (@main sample_lib sample_schema (sample_env sample_source sample_dest))
    = Some (st, c)
    /\ tables_migrated st = 20.
Proof.
  destruct (@main sample_lib sample_schema (sample_env sample_source sample_dest))
    as [e p [[st c]|]] eqn:Hmain.
  - exists st, c. split; [reflexivity|].
    apply (proj1 (@every_planned_table_is_counted sample_lib sample_schema)
             (sample_env sample_source sample_dest) st c).
    by rewrite Hmain.
  - by vm_compute in Hmain.
Defined.

(** ** One table's sequence *)

Section RepairFacts.
Context `{PyLib} `{PgSchema}.

Lemma world_eta w : {| stats := stats w; pg := pg w; stdout := stdout w |} = w.
Proof. by destruct w. Qed.

Lemma conn_eta c :
  {| committed := committed c; current := current c; tx_failed := tx_failed c |} = c.
Proof. by destruct c. Qed.

Lemma execute_select_max table col w rows :
  tx_failed (pg w) = false ->
  db_tables (current (pg w)) !! table = Some rows ->
  execute (SelectMax col table) w
  = (Ok {| rowcount := 1; fetchone0 := pg_max col rows |}, w).
Proof.
  intros Hf Ht. unfold execute, pg_execute. rewrite Hf; cbn [run_stmt]. rewrite Ht.
  f_equal. unfold with_pg. rewrite <- Hf, conn_eta. apply world_eta.
Qed.

(** A maximum that is null or zero: nothing is sent, nothing is printed. *)
Lemma reset_sequence_skip table col w rows :
  tx_failed (pg w) = false ->
  db_tables (current (pg w)) !! table = Some rows ->
  py_bool (pg_max col rows) = false ->
  reset_sequence table col w = (Ok tt, w).
Proof.
  intros Hf Ht Hm. rewrite reset_sequence_eq. unfold repair_sequence, bind.
  rewrite (execute_select_max _ _ _ rows) by done. cbn [fetchone0]. by rewrite Hm.
Qed.

(** A maximum of 1 or more, and the sequence there: it is set to the
    maximum, and that is committed. *)
Lemma reset_sequence_advance table col w rows z :
  tx_failed (pg w) = false ->
  db_tables (current (pg w)) !! table = Some rows ->
  pg_max col rows = PInt z ->
  1 <= z ->
  is_Some (db_sequences (current (pg w)) !! seq_name_of table col) ->
  reset_sequence table col w
  = (Ok tt,
     with_line ("  ✓ Reset " +:+ seq_name_of table col +:+ " to " +:+ pretty z)
       (with_pg (fun c =>
          connect (set_sequences
                     (<[seq_name_of table col := {| last_value := z; is_called := true |}]>
                        (db_sequences (current c)))
                     (current c))) w)).
Proof.
  intros Hf Ht Hm Hz [q Hq]. rewrite reset_sequence_eq. unfold repair_sequence, bind.
  rewrite (execute_select_max _ _ _ rows) by done. cbn [fetchone0]. rewrite Hm.
  assert (py_bool (PInt z) = true) as -> by (simpl; apply negb_true_iff, Z.eqb_neq; lia).
  unfold execute at 1, pg_execute. rewrite Hf. cbn [run_stmt]. rewrite Hq.
  unfold seq_min_value. destruct (1 <=? z) eqn:Hz'; [|apply Z.leb_gt in Hz'; lia].
  reflexivity.
Qed.

(** A maximum that is neither null nor zero: whatever the server answers,
    a line is printed. *)
Lemma reset_sequence_prints table col w rows :
  tx_failed (pg w) = false ->
  db_tables (current (pg w)) !! table = Some rows ->
  py_bool (pg_max col rows) = true ->
  exists w' line, reset_sequence table col w = (Ok tt, w')
                  /\ stdout w' = stdout w ++ [line].
Proof.
  intros Hf Ht Hm. rewrite reset_sequence_eq. unfold repair_sequence, bind.
  rewrite (execute_select_max _ _ _ rows) by done. cbn [fetchone0]. rewrite Hm.
  unfold execute. destruct (pg_execute _ (pg w)) as [[cur|e] c]; by do 2 eexists.
Qed.

End RepairFacts.

(** ** The sequences after the loop *)

Section RepairLoop.
Context `{PyLib} `{PgSchema}.

Lemma repair_loop items :
  NoDup (map (fun item => seq_name_of (fst item) (snd item)) items) ->
  forall w,
    clean (pg w) ->
    (forall table col, (table, col) ∈ items -> repairable (committed (pg w)) table col) ->
    exists w',
      for_each items (fun item => reset_sequence (fst item) (snd item)) w = (Ok tt, w')
      /\ clean (pg w')
      /\ db_tables (committed (pg w')) = db_tables (committed (pg w))
      /\ (forall name,
            name ∉ map (fun item => seq_name_of (fst item) (snd item)) items ->
            db_sequences (committed (pg w')) !! name
            = db_sequences (committed (pg w)) !! name)
      /\ forall table col,
           (table, col) ∈ items ->
           let max_val := pg_max col (rows_of (committed (pg w)) table) in
           (py_bool max_val = false ->
            db_sequences (committed (pg w')) !! seq_name_of table col
            = db_sequences (committed (pg w)) !! seq_name_of table col)
           /\ (forall z, max_val = PInt z -> z <> 0 ->
                 db_sequences (committed (pg w')) !! seq_name_of table col
                 = Some {| last_value := z; is_called := true |}).
Proof.
  induction items as [|[table col] items IH]; intros Hnd w Hclean Hrep.
  - exists w. do 4 (split; [done|]). intros table col Hin. by apply elem_of_nil in Hin.
  - cbn [map fst snd] in Hnd. apply NoDup_cons in Hnd as [Hfresh Hnd].
    destruct Hclean as [Hcur Hf].
    destruct (Hrep table col) as (rows & Ht & Hcase); [by left|].
    assert (Hrows : rows_of (committed (pg w)) table = rows).
    { unfold rows_of. by rewrite Ht. }
    cbn [for_each]. unfold bind. cbn beta; cbn [fst snd].
    destruct Hcase as [Hfalsy|(z & Hmax & Hz & Hseq)].
    + (* skipped *)
      rewrite (reset_sequence_skip table col w rows) by (by rewrite ?Hcur).
      destruct (IH Hnd w) as (w' & Hloop & Hclean' & Htabs & Hother & Hitems).
      { done. }
      { intros table' col' Hin. apply Hrep. by right. }
      exists w'. split; [done|]. split; [done|]. split; [done|]. split.
      * intros name Hname. apply Hother. cbn [map fst snd] in Hname.
        by apply not_elem_of_cons in Hname as [_ ?].
      * intros table' col' Hin. apply elem_of_cons in Hin as [[= -> ->]|Hin].
        -- cbn zeta. rewrite Hrows. split.
           ++ intros _. by apply Hother.
           ++ intros z Hmax Hz. rewrite Hmax in Hfalsy. simpl in Hfalsy.
              apply negb_false_iff, Z.eqb_eq in Hfalsy. done.
        -- by apply Hitems.
    + (* advanced *)
      rewrite (reset_sequence_advance table col w rows z) by (by rewrite ?Hcur).
      match goal with |- context [for_each items _ ?w0] => set (w1 := w0) end.
      assert (Hc1 : committed (pg w1)
                    = set_sequences
                        (<[seq_name_of table col := {| last_value := z; is_called := true |}]>
                           (db_sequences (committed (pg w)))) (committed (pg w))).
      { subst w1; cbn. by rewrite Hcur. }
      destruct (IH Hnd w1) as (w' & Hloop & Hclean' & Htabs & Hother & Hitems).
      { done. }
      { intros table' col' Hin.
        destruct (Hrep table' col') as (rows' & Ht' & Hcase'); [by right|].
        exists rows'. rewrite Hc1. split; [done|].
        destruct Hcase' as [?|(z' & ? & ? & Hs')]; [by left|right].
        exists z'. repeat split; try done. cbn.
        destruct (decide (seq_name_of table col = seq_name_of table' col')) as [->|Hne].
        - rewrite lookup_insert_eq. by eexists.
        - by rewrite lookup_insert_ne. }
      exists w'. split; [done|]. split; [done|]. split; [by rewrite Htabs, Hc1|]. split.
      * intros name Hname. cbn [map fst snd] in Hname.
        apply not_elem_of_cons in Hname as [Hne Hname].
        rewrite Hother, Hc1 by done. cbn. by rewrite lookup_insert_ne.
      * intros table' col' Hin. apply elem_of_cons in Hin as [[= -> ->]|Hin].
        -- cbn zeta. rewrite Hrows, Hmax. split.
           ++ simpl. intros Hb. apply negb_false_iff, Z.eqb_eq in Hb. lia.
           ++ intros z' [= <-] _. rewrite Hother, Hc1 by done. cbn.
              by rewrite lookup_insert_eq.
        -- destruct (Hitems table' col' Hin) as [Hskip Hadv].
           assert (Hne : seq_name_of table col <> seq_name_of table' col').
           { intros Heq. apply Hfresh. rewrite Heq.
             by apply (list_elem_of_fmap_2 (fun item => seq_name_of (fst item) (snd item))
                         items (table', col')). }
           assert (Hr1 : rows_of (committed (pg w1)) table'
                         = rows_of (committed (pg w)) table').
           { unfold rows_of. by rewrite Hc1. }
           cbn zeta in Hskip, Hadv. rewrite Hr1 in Hskip, Hadv. cbn zeta. split.
           ++ intros Hb. rewrite Hskip, Hc1 by done. cbn. by rewrite lookup_insert_ne.
           ++ done.
Qed.

Lemma serial_sequence_names_distinct :
  NoDup (map (fun item => seq_name_of (fst item) (snd item)) SERIAL_COLUMNS).
Proof. apply (bool_decide_unpack _). by vm_compute. Qed.

End RepairLoop.

(** C3, as the claim states it, fails: a table that is not empty but whose
    greatest key is 0 has its repair skipped like an empty one. Here
    [conversation_messages] holds one row, of key 0: its maximum is 0, not
    null, and the repair neither sends a statement nor prints a line. *)
Lemma zero_key_repair_is_skipped :
  rows_of (committed (pg zero_key_world)) "conversation_messages" <> []
  /\ pg_max "id" (rows_of (committed (pg zero_key_world)) "conversation_messages") = PInt 0
  /\ @reset_sequence sample_lib sample_schema "conversation_messages" "id" zero_key_world
     = (Ok tt, zero_key_world).
Proof. split; [|split]; by vm_compute. Qed.

(** C3, amended. The repair of one table does nothing at all exactly when
    the maximum of its key is null or zero. When no repair can fail (every
    SERIAL table exists and has a maximum that is null, zero, or at least 1
    with its sequence present), the repair of the sequences returns with
    the statistics and the tables as they were, and for every SERIAL
    table: if the maximum is null or zero its sequence is as it was; if
    not, the next value of its sequence is the maximum plus one, strictly
    greater than every key of the table. *)
Theorem sequence_repair_sets_next_value `{PyLib} `{PgSchema} :
  (forall table col w rows,
     tx_failed (pg w) = false ->
     db_tables (current (pg w)) !! table = Some rows ->
     (reset_sequence table col w = (Ok tt, w)
      <-> pg_max col rows = PNone \/ pg_max col rows = PInt 0))
  /\ (forall w,
        clean (pg w) ->
        (forall table col,
           (table, col) ∈ SERIAL_COLUMNS -> repairable (committed (pg w)) table col) ->
        exists w',
          reset_sequences w = (Ok tt, w')
          /\ stats w' = stats w
          /\ clean (pg w')
          /\ db_tables (committed (pg w')) = db_tables (committed (pg w))
          /\ forall table col,
               (table, col) ∈ SERIAL_COLUMNS ->
               let max_val := pg_max col (rows_of (committed (pg w')) table) in
               let name := seq_name_of table col in
               (max_val = PNone \/ max_val = PInt 0 ->
                db_sequences (committed (pg w')) !! name
                = db_sequences (committed (pg w)) !! name)
               /\ (forall z, max_val = PInt z -> z <> 0 ->
                     exists s, db_sequences (committed (pg w')) !! name = Some s
                               /\ nextval s = z + 1 /\ z < nextval s)).
Proof.
  split.
  - intros table col w rows Hf Ht. rewrite <- pg_max_falsy. split.
    + intros Hskip. destruct (py_bool (pg_max col rows)) eqn:Hb; [|done].
      destruct (reset_sequence_prints table col w rows Hf Ht Hb) as (w' & line & Hr & Hout).
      rewrite Hskip in Hr. injection Hr as <-.
      apply (f_equal length) in Hout. rewrite length_app in Hout. simpl in Hout. lia.
    + by apply reset_sequence_skip.
  - intros w Hclean Hrep. unfold reset_sequences, bind, print.
    destruct (repair_loop SERIAL_COLUMNS serial_sequence_names_distinct
                (with_line (newline +:+ "Resetting sequences...") w) Hclean Hrep)
      as (w' & Hloop & Hclean' & Htabs & _ & Hitems).
    destruct (reset_sequences_loop_returns SERIAL_COLUMNS
                (with_line (newline +:+ "Resetting sequences...") w)) as (w'' & Hloop' & Hst).
    rewrite Hloop in Hloop'. injection Hloop' as <-. rewrite Hloop.
    exists w'. do 4 (split; [done|]).
    intros table col Hin. cbn zeta.
    destruct (Hitems table col Hin) as [Hskip Hadv]. cbn zeta in Hskip, Hadv.
    assert (Hrows : rows_of (committed (pg w')) table = rows_of (committed (pg w)) table).
    { unfold rows_of. by rewrite Htabs. }
    rewrite Hrows. split.
    + intros Hm. apply Hskip. by apply pg_max_falsy.
    + intros z Hm Hz. eexists. split; [by apply Hadv|]. unfold nextval; simpl. lia.
Qed.

Lemma sample_dest_repairable table col :
  (table, col) ∈ SERIAL_COLUMNS ->
  repairable (committed (pg keys_3_7_12_world)) table col.
Proof.
  intros Hin. unfold SERIAL_COLUMNS in Hin.
  repeat (apply elem_of_cons in Hin; destruct Hin as [[= -> ->]|Hin]);
    try (by apply elem_of_nil in Hin).
  all: eexists; split; [by vm_compute|].
  all: first [left; by vm_compute
             | right; eexists; split; [by vm_compute|]; split; [lia|];
               eexists; by vm_compute].
Qed.

Lemma sequence_repair_sets_next_value_witness :
  exists w' s,
    @reset_sequences sample_lib sample_schema keys_3_7_12_world = (Ok tt, w')
    /\ db_sequences (committed (pg w')) !! "conversation_messages_id_seq" = Some s
    /\ nextval s = 13.
Proof.
  destruct (proj2 (@sequence_repair_sets_next_value sample_lib sample_schema)
              keys_3_7_12_world (conj eq_refl eq_refl) sample_dest_repairable)
    as (w' & Hr & _ & _ & Htabs & Hitems).
  destruct (Hitems "conversation_messages" "id") as [_ Hadv]; [by left|].
  destruct (Hadv 12) as (s & Hs & Hnext & _).
  - unfold rows_of. rewrite Htabs. by vm_compute.
  - lia.
  - exists w', s. split; [exact Hr|]. split; [exact Hs|exact Hnext].
Defined.

(** C2, as the claim states it, fails: a failed repair is not added to the
    error list. In the run over a source whose [conversation_messages] has
    the key -1, the server refuses [setval] with that value; the warning is
    printed, the error list stays empty, no summary is printed, and the
    run ends with an exception nobody caught. *)
Lemma sequence_failure_is_not_recorded :
  ("  ⚠️  Could not reset conversation_messages_id_seq: setval: value out of bounds for sequence"
     ∈ printed negative_key_run)
  /\ ("MIGRATION SUMMARY" ∉ printed negative_key_run)
  /\ ending negative_key_run = Uncaught in_failed_transaction
  /\ exists st c, session negative_key_run = Some (st, c) /\ errors st = [].
Proof.
  split; [|split; [|split]].
  - apply (bool_decide_unpack _). by vm_compute.
  - apply (bool_decide_unpack _). by vm_compute.
  - by vm_compute.
  - do 2 eexists. split; [by vm_compute|]. done.
Qed.

(** C2, amended. The repair of the sequences never raises and leaves the
    statistics, error list included, as they were. Each table's repair
    runs in the world the repairs before it left, whether they failed or
    not, and those after it run in turn. A repair that raises is caught on
    the spot, and all that is done about it is to print one warning with
    the name of the sequence and the message of the exception. *)
Theorem sequence_failures_are_warnings `{PyLib} `{PgSchema} :
  (forall w, exists w', reset_sequences w = (Ok tt, w') /\ stats w' = stats w)
  /\ (forall before table col after w,
        SERIAL_COLUMNS = before ++ (table, col) :: after ->
        exists w1 w2 w',
          for_each before (fun item => reset_sequence (fst item) (snd item))
            (with_line (newline +:+ "Resetting sequences...") w) = (Ok tt, w1)
          /\ reset_sequence table col w1 = (Ok tt, w2)
          /\ for_each after (fun item => reset_sequence (fst item) (snd item)) w2
             = (Ok tt, w')
          /\ reset_sequences w = (Ok tt, w'))
  /\ (forall table col w e w1,
        repair_sequence table col w = (Raise e, w1) ->
        reset_sequence table col w
        = (Ok tt,
           with_line ("  ⚠️  Could not reset " +:+ seq_name_of table col +:+ ": " +:+ str_exn e)
             w1)
        /\ stats w1 = stats w).
Proof.
  split; [|split].
  - apply reset_sequences_returns.
  - intros before table col after w Hsplit.
    destruct (reset_sequences_loop_returns before
                (with_line (newline +:+ "Resetting sequences...") w)) as (w1 & Hb & _).
    destruct (reset_sequence_returns table col w1) as (w2 & Hr & _).
    destruct (reset_sequences_loop_returns after w2) as (w' & Ha & _).
    exists w1, w2, w'. do 3 (split; [done|]).
    unfold reset_sequences, bind, print. rewrite Hsplit, for_each_app, Hb.
    cbn [for_each]. unfold bind. cbn beta; cbn [fst snd]. by rewrite Hr.
  - intros table col w e w1 Hr. split.
    + by rewrite reset_sequence_eq, Hr.
    + by apply repair_sequence_stats in Hr.
Qed.

Lemma sequence_failures_are_warnings_witness :
  exists w1,
    @reset_sequence sample_lib sample_schema "conversation_messages" "id"
      (sample_world (sample_dest_with "conversation_messages" [[("id", PInt (-1))]]))
    = (Ok tt,
       with_line
         "  ⚠️  Could not reset conversation_messages_id_seq: setval: value out of bounds for sequence"
         w1)
    /\ errors (stats w1) = [].
Proof.
  eexists. 
  destruct (proj2 (proj2 (@sequence_failures_are_warnings sample_lib sample_schema))
              "conversation_messages" "id"
              (sample_world (sample_dest_with "conversation_messages" [[("id", PInt (-1))]]))
              (Exn DatabaseError "setval: value out of bounds for sequence")
              _ eq_refl) as [Hr Hs].
  split; [exact Hr|]. by rewrite Hs.
Defined.

(** C8. The code misses what the claim says, on this run: the source has
    one row, of key -1, in [conversation_messages]. The 20 tables are
    migrated; [setval] is refused for -1; the handler of [reset_sequences]
    prints its warning without the rollback that the handler of the batch
    insert does, so the transaction stays failed; the statement under
    "Re-enable FK checks" is refused in its turn, nobody catches that, and
    the run ends with the session still in the replica role. *)
Lemma fk_checks_left_suspended :
  ending negative_key_run = Uncaught in_failed_transaction
  /\ exists st c,
       session negative_key_run = Some (st, c)
       /\ tables_migrated st = 20
       /\ tx_failed c = true
       /\ session_replication_role (current c) = Replica
       /\ session_replication_role (committed c) = Replica.
Proof.
  split; [by vm_compute|].
  do 2 eexists. split; [by vm_compute|]. done.
Qed.



(** ** The rows a batch leaves in a table *)

Section InsertFacts.
Context `{PgSchema}.

Lemma insert_row_extends table columns stored row :
  exists added,
    insert_row table columns stored row = stored ++ added
    /\ (length added <= 1)%nat
    /\ Forall (fun r => r = zip columns row) added.
Proof.
  unfold insert_row. destruct (existsb _ stored).
  - exists []. rewrite app_nil_r. split; [done|]. split; [simpl; lia|constructor].
  - exists [zip columns row]. split; [done|]. split; [simpl; lia|by constructor].
Qed.

(** The rows already there stay, in place; what is added are submitted
    rows, at most one for each. *)
Lemma insert_rows_extends table columns rows stored :
  exists added,
    insert_rows table columns rows stored = stored ++ added
    /\ (length added <= length rows)%nat
    /\ Forall (fun r => exists row, row ∈ rows /\ r = zip columns row) added.
Proof.
  revert stored. induction rows as [|row rows IH]; intros stored.
  - exists []. rewrite app_nil_r. split; [done|]. split; [simpl; lia|constructor].
  - unfold insert_rows. cbn [foldl].
    destruct (insert_row_extends table columns stored row) as (a1 & -> & Hl1 & Hf1).
    destruct (IH (stored ++ a1)) as (a2 & Ha2 & Hl2 & Hf2).
    unfold insert_rows in Ha2. rewrite Ha2.
    exists (a1 ++ a2). rewrite app_assoc. split; [done|]. split.
    + rewrite length_app. simpl. lia.
    + apply Forall_app. split.
      * eapply Forall_impl; [exact Hf1|]. intros r ->. exists row. split; [by left|done].
      * eapply Forall_impl; [exact Hf2|]. intros r (row' & Hin & ->).
        exists row'. split; [by right|done].
Qed.

(** After the batch every submitted row is stored, or collides with a
    stored row. *)
Lemma insert_rows_covers table columns rows stored row :
  row ∈ rows ->
  exists r, r ∈ insert_rows table columns rows stored
            /\ (r = zip columns row \/ conflicts table (zip columns row) r = true).
Proof.
  revert stored. induction rows as [|row0 rows IH]; intros stored Hin.
  - by apply elem_of_nil in Hin.
  - unfold insert_rows. cbn [foldl]. apply elem_of_cons in Hin as [->|Hin].
    + destruct (insert_rows_extends table columns rows (insert_row table columns stored row0))
        as (added & Ha & _). unfold insert_rows in Ha. rewrite Ha.
      unfold insert_row. destruct (existsb _ stored) eqn:Hex.
      * apply existsb_exists in Hex as (r & Hr & Hc).
        exists r. split; [|by right]. apply elem_of_app. left. by apply list_elem_of_In.
      * exists (zip columns row0). split; [|by left].
        rewrite !elem_of_app. left; right. by left.
    + by apply IH.
Qed.

(** Rows that all collide with stored rows leave the table as it is. *)
Lemma insert_rows_all_present table columns rows stored :
  (forall row, row ∈ rows ->
     exists r, r ∈ stored /\ conflicts table (zip columns row) r = true) ->
  insert_rows table columns rows stored = stored.
Proof.
  induction rows as [|row rows IH]; intros Hall; [done|].
  unfold insert_rows. cbn [foldl]. unfold insert_row at 2.
  destruct (Hall row) as (r & Hr & Hc); [by left|].
  assert (existsb (conflicts table (zip columns row)) stored = true) as ->.
  { apply existsb_exists. exists r. split; [by apply list_elem_of_In|done]. }
  apply IH. intros row' Hin. apply Hall. by right.
Qed.

End InsertFacts.

(** ** What a batch adds to its table *)

Section CountFacts.
Context `{PyLib} `{PgSchema}.

Lemma record_row_errors_total_rows table columns rows row_num self :
  total_rows (record_row_errors table columns row_num rows self) = total_rows self.
Proof.
  revert row_num self. induction rows as [|row rows IH]; intros row_num self; [done|].
  cbn [record_row_errors]. rewrite IH. by destruct (convert_row table columns 0 row).
Qed.

Lemma run_stmt_insert_inv table columns row s cur s' :
  run_stmt (InsertOnConflictDoNothing table columns row) s = Ok (cur, s') ->
  exists added,
    rows_of s' table = rows_of s table ++ added
    /\ rowcount cur = Z.of_nat (length added).
Proof.
  unfold run_stmt, rows_of. destruct (length row ?= length columns)%nat; [|done|done].
  destruct (db_tables s !! table) as [stored|] eqn:Ht; [|done].
  destruct (accepts table columns row); [|done].
  destruct (existsb _ stored); intros [= <- <-]; simpl.
  - exists []. by rewrite app_nil_r, Ht.
  - exists [zip columns row]. by rewrite lookup_insert_eq.
Qed.

(** The count [executemany] returns is the number of rows it added. *)
Lemma executemany_counts table columns rows count w n w' :
  executemany table columns rows count w = (Ok n, w') ->
  exists added,
    rows_of (current (pg w')) table = rows_of (current (pg w)) table ++ added
    /\ n = count + Z.of_nat (length added).
Proof.
  revert count w. induction rows as [|row rows IH]; intros count w.
  - intros [= <- <-]. exists []. rewrite app_nil_r. split; [done|simpl; lia].
  - cbn [executemany]. unfold bind, execute.
    destruct (pg_execute _ (pg w)) as [[cur|e] c] eqn:Hx; [|done].
    intros Hrest. apply IH in Hrest as (a2 & Hrows2 & ->). cbn in Hrows2.
    apply pg_execute_ok in Hx as (_ & _ & _ & Hrun).
    apply run_stmt_insert_inv in Hrun as (a1 & Hrows1 & ->).
    exists (a1 ++ a2). rewrite Hrows2, Hrows1, app_assoc. split; [done|].
    rewrite length_app. lia.
Qed.

(** On every path, [migrate_table] returns the number of rows it added to
    the table of the destination, and adds that number to [total_rows]. *)
Lemma migrate_table_counts sqlite_conn table w :
  clean (pg w) ->
  exists n w' added,
    migrate_table sqlite_conn table w = (Ok n, w')
    /\ total_rows (stats w') = total_rows (stats w) + n
    /\ clean (pg w')
    /\ rows_of (committed (pg w')) table = rows_of (committed (pg w)) table ++ added
    /\ n = Z.of_nat (length added).
Proof.
  intros Hclean.
  assert (Hidle : forall w0 : world,
            total_rows (stats w0) = total_rows (stats w) -> pg w0 = pg w ->
            exists n w' added,
              (Ok 0, w0) = (Ok n, w')
              /\ total_rows (stats w') = total_rows (stats w) + n
              /\ clean (pg w')
              /\ rows_of (committed (pg w')) table
                 = rows_of (committed (pg w)) table ++ added
              /\ n = Z.of_nat (length added)).
  { intros w0 Hst Hpg. exists 0, w0, []. rewrite app_nil_r, Hpg, Hst.
    repeat split; [lia|apply Hclean..]. }
  rewrite migrate_table_eq; cbn zeta.
  destruct (get_table_columns sqlite_conn table) as [[|column columns]|e];
    [by apply Hidle| |by apply Hidle].
  destruct (select_all sqlite_conn table) as [[|row rows]|e];
    [by apply Hidle| |by apply Hidle].
  destruct (converted_rows_of table (column :: columns) (row :: rows))
    as [|converted_row converted_rows].
  { apply Hidle; [|done]. cbn [stats with_stats with_line with_pg]. apply record_row_errors_total_rows. }
  rewrite batch_insert_eq. destruct Hclean as [Hcur Hf].
  destruct (executemany_frame table (column :: columns)
              (converted_row :: converted_rows) 0
              (with_stats (record_row_errors table (column :: columns) 1 (row :: rows)) w))
    as (r & c & Hx & Hc & _).
  rewrite Hx. cbn [pg with_stats] in Hc. destruct r as [n|e].
  - destruct (executemany_keeps _ _ _ _ _ _ _ Hx) as (Hf1 & _).
    apply executemany_counts in Hx as (added & Hrows & ->).
    cbn [pg with_stats with_pg] in Hf1, Hrows.
    eexists (0 + Z.of_nat (length added)), _, added. split; [reflexivity|].
    cbn [stats pg with_stats with_line with_pg add_total_rows total_rows].
    unfold pg_commit. rewrite Hf1, Hf. cbn [committed current tx_failed].
    rewrite Hrows, Hcur, record_row_errors_total_rows. repeat split; lia.
  - eexists 0, _, []. split; [reflexivity|].
    cbn [stats pg with_stats with_line with_pg add_error total_rows pg_rollback
         committed current tx_failed].
    rewrite Hc, app_nil_r, record_row_errors_total_rows. repeat split; lia.
Qed.

(** A batch whose rows are all accepted: what is left in the table. *)
Lemma migrate_table_success sqlite_conn table columns rows stored w :
  clean (pg w) ->
  get_table_columns sqlite_conn table = Ok columns ->
  columns <> [] ->
  select_all sqlite_conn table = Ok rows ->
  converted_rows_of table columns rows <> [] ->
  db_tables (committed (pg w)) !! table = Some stored ->
  Forall (accepted table columns) (converted_rows_of table columns rows) ->
  let stored' := insert_rows table columns (converted_rows_of table columns rows) stored in
  let n := Z.of_nat (length stored') - Z.of_nat (length stored) in
  migrate_table sqlite_conn table w
  = (Ok n,
     with_stats (add_total_rows n)
       (with_line ("  ✓ " +:+ table +:+ ": " +:+ pretty n +:+ " rows migrated")
          (with_pg (fun c =>
             connect (set_tables (<[table := stored']> (db_tables (current c))) (current c)))
             (with_stats (record_row_errors table columns 1 rows) w)))).
Proof.
  intros [Hcur Hf] Hcols Hne Hrows Hsub Ht Hacc. cbn zeta.
  rewrite migrate_table_eq; cbn zeta. rewrite Hcols, Hrows.
  destruct columns as [|column columns]; [done|].
  destruct rows as [|row rows]; [done|].
  destruct (converted_rows_of table (column :: columns) (row :: rows))
    as [|converted_row converted_rows] eqn:Hconv; [done|].
  rewrite batch_insert_eq.
  rewrite (executemany_ok _ _ _ _ _ stored); [|done|cbn; by rewrite Hcur|done].
  rewrite Z.add_0_l. reflexivity.
Qed.

(** A table whose submitted rows all collide with stored rows: migrating
    it changes nothing in the destination. *)
Lemma migrate_table_again sqlite_conn table columns rows stored w :
  clean (pg w) ->
  get_table_columns sqlite_conn table = Ok columns ->
  select_all sqlite_conn table = Ok rows ->
  db_tables (committed (pg w)) !! table = Some stored ->
  Forall (accepted table columns) (converted_rows_of table columns rows) ->
  (forall row, row ∈ converted_rows_of table columns rows ->
     exists r, r ∈ stored /\ conflicts table (zip columns row) r = true) ->
  exists w',
    migrate_table sqlite_conn table w = (Ok 0, w')
    /\ total_rows (stats w') = total_rows (stats w)
    /\ pg w' = pg w.
Proof.
  intros Hclean Hcols Hrows Ht Hacc Hpresent.
  destruct (decide (columns = [])) as [->|Hne].
  { rewrite migrate_table_eq; cbn zeta. rewrite Hcols. by eexists. }
  destruct (decide (converted_rows_of table columns rows = [])) as [Hnil|Hsub].
  { rewrite migrate_table_eq; cbn zeta. rewrite Hcols, Hrows.
    destruct columns as [|column columns]; [done|].
    destruct rows as [|row rows]; [by eexists|]. rewrite Hnil.
    eexists. split; [reflexivity|]. split; [|done].
    cbn [stats with_stats with_line with_pg]. apply record_row_errors_total_rows. }
  pose proof (migrate_table_success sqlite_conn table columns rows stored w
                Hclean Hcols Hne Hrows Hsub Ht Hacc) as Hrun. cbn zeta in Hrun.
  rewrite insert_rows_all_present, Z.sub_diag in Hrun by done.
  eexists. split; [exact Hrun|]. split.
  - cbn. rewrite record_row_errors_total_rows. lia.
  - destruct Hclean as [Hcur Hf]. destruct w as [st [cm cu fl] out].
    cbn in *. subst cu fl. unfold connect. f_equal.
    all: by rewrite insert_id, set_tables_same.
Qed.

End CountFacts.

(** C1. Between two transactions, [migrate_table] returns, and adds to
    [total_rows], the number of rows that the table of the destination has
    gained once it is done: the rows stored before are still there, and
    the new ones follow them. When the table was read, exists in the
    destination and had all its converted rows accepted, that number is at
    most the number of rows submitted; and if moreover every submitted row
    collides with itself (the table has a key), migrating the table again
    into any destination that still holds the rows it held after the first
    time returns 0, adds 0 to [total_rows] and leaves the connection as it
    was. *)
Theorem batch_write_counts_persisted_rows `{PyLib} `{PgSchema} sqlite_conn table w :
  clean (pg w) ->
  exists n w' added,
    migrate_table sqlite_conn table w = (Ok n, w')
    /\ total_rows (stats w') = total_rows (stats w) + n
    /\ clean (pg w')
    /\ rows_of (committed (pg w')) table = rows_of (committed (pg w)) table ++ added
    /\ n = Z.of_nat (length added)
    /\ forall columns rows,
         get_table_columns sqlite_conn table = Ok columns ->
         select_all sqlite_conn table = Ok rows ->
         is_Some (db_tables (committed (pg w)) !! table) ->
         Forall (accepted table columns) (converted_rows_of table columns rows) ->
         n <= Z.of_nat (length (converted_rows_of table columns rows))
         /\ ((forall row, row ∈ converted_rows_of table columns rows ->
                conflicts table (zip columns row) (zip columns row) = true) ->
             forall w2,
               clean (pg w2) ->
               is_Some (db_tables (committed (pg w2)) !! table) ->
               (forall r, r ∈ rows_of (committed (pg w')) table ->
                          r ∈ rows_of (committed (pg w2)) table) ->
               exists w2',
                 migrate_table sqlite_conn table w2 = (Ok 0, w2')
                 /\ total_rows (stats w2') = total_rows (stats w2)
                 /\ pg w2' = pg w2).
Proof.
  intros Hclean.
  destruct (migrate_table_counts sqlite_conn table w Hclean)
    as (n & w' & added & Hrun & Htotal & Hclean' & Hstored & Hn).
  exists n, w', added. do 5 (split; [done|]).
  intros columns rows Hcols Hrows [stored Ht] Hacc.
  destruct (decide (columns <> [] /\ converted_rows_of table columns rows <> []))
    as [[Hne Hsub]|Hidle].
  - (* the batch was sent, and accepted *)
    pose proof (migrate_table_success sqlite_conn table columns rows stored w
                  Hclean Hcols Hne Hrows Hsub Ht Hacc) as Hrun'. cbn zeta in Hrun'.
    rewrite Hrun in Hrun'. injection Hrun' as Hn' Hw'.
    destruct (insert_rows_extends table columns (converted_rows_of table columns rows) stored)
      as (added' & Hadded & Hlen & _).
    split.
    { rewrite Hn', Hadded, length_app. lia. }
    intros Hself w2 Hclean2 [stored2 Ht2] Hkept.
    apply (migrate_table_again sqlite_conn table columns rows stored2); try done.
    intros row Hin.
    destruct (insert_rows_covers table columns _ stored row Hin) as (r & Hr & Hcase).
    exists r. split.
    + assert (Hin2 : r ∈ rows_of (committed (pg w2)) table).
      { apply Hkept. rewrite Hw'. unfold rows_of; cbn. by rewrite lookup_insert_eq. }
      unfold rows_of in Hin2. by rewrite Ht2 in Hin2.
    + destruct Hcase as [->|Hc]; [by apply Hself|done].
  - (* nothing was sent *)
    assert (Hn0 : n = 0).
    { rewrite migrate_table_eq in Hrun; cbn zeta in Hrun. rewrite Hcols, Hrows in Hrun.
      destruct columns as [|column columns]; [by injection Hrun|].
      destruct rows as [|row rows]; [by injection Hrun|].
      destruct (converted_rows_of table (column :: columns) (row :: rows)) eqn:Hconv;
        [by injection Hrun|].
      destruct Hidle. by split. }
    split; [lia|].
    intros Hself w2 Hclean2 [stored2 Ht2] Hkept.
    rewrite migrate_table_eq; cbn zeta. rewrite Hcols, Hrows.
    destruct columns as [|column columns]; [by eexists|].
    destruct rows as [|row rows]; [by eexists|].
    destruct (converted_rows_of table (column :: columns) (row :: rows)) eqn:Hconv.
    + eexists. split; [reflexivity|]. split; [|done].
      cbn [stats with_stats with_line with_pg]. apply record_row_errors_total_rows.
    + destruct Hidle. by split.
Qed.

Lemma batch_write_counts_persisted_rows_witness :
  exists w' w2',
    @migrate_table sample_lib sample_schema sample_source "conversation_messages"
      (sample_world sample_dest) = (Ok 3, w')
    /\ @migrate_table sample_lib sample_schema sample_source "conversation_messages" w'
       = (Ok 0, w2')
    /\ pg w2' = pg w'.
Proof.
  assert (Hconv : @converted_rows_of sample_lib "conversation_messages" ["id"; "content"]
                    [[PInt 3; PStr "a"]; [PInt 7; PStr "b"]; [PInt 12; PStr "c"]]
                  = [[PInt 3; PStr "a"]; [PInt 7; PStr "b"]; [PInt 12; PStr "c"]])
    by reflexivity.
  destruct (@batch_write_counts_persisted_rows sample_lib sample_schema sample_source
              "conversation_messages" (sample_world sample_dest) (conj eq_refl eq_refl))
    as (n & w' & added & Hrun & _ & Hclean & Hstored & _ & Hagain).
  destruct (Hagain ["id"; "content"]
              [[PInt 3; PStr "a"]; [PInt 7; PStr "b"]; [PInt 12; PStr "c"]])
    as [_ Hsecond].
  - reflexivity.
  - reflexivity.
  - eexists. by vm_compute.
  - rewrite Hconv. repeat constructor.
  - destruct (Hsecond) with (w2 := w') as (w2' & Hrun2 & _ & Hpg).
    + intros row Hin. rewrite Hconv in Hin. in_cases Hin; reflexivity.
    + exact Hclean.
    + assert (Hsnd : snd (@migrate_table sample_lib sample_schema sample_source
                            "conversation_messages" (sample_world sample_dest)) = w')
        by (by rewrite Hrun).
      rewrite <- Hsnd. eexists. by vm_compute.
    + done.
    + assert (Hfst : fst (@migrate_table sample_lib sample_schema sample_source
                            "conversation_messages" (sample_world sample_dest)) = Ok 3)
        by (by vm_compute).
      rewrite Hrun in Hfst. injection Hfst as ->.
      exists w', w2'. split; [exact Hrun|]. split; [exact Hrun2|exact Hpg].
Defined.

(** ** The destination depends on the destination alone *)

Section Independence.
Context `{PyLib} `{PgSchema}.

(** What a table's migration returns and does to the connection depends
    on the world through the connection only. *)
Lemma executemany_pg_only table columns rows count w v :
  pg w = pg v ->
  fst (executemany table columns rows count w) = fst (executemany table columns rows count v)
  /\ pg (snd (executemany table columns rows count w))
     = pg (snd (executemany table columns rows count v)).
Proof.
  revert count w v. induction rows as [|row rows IH]; intros count w v Hpg; [done|].
  cbn [executemany]. unfold bind, execute. rewrite Hpg.
  destruct (pg_execute _ (pg v)) as [[cur|e] c]; [|done].
  by apply IH.
Qed.

Lemma batch_insert_pg_only table columns converted_rows w v :
  pg w = pg v ->
  fst (batch_insert table columns converted_rows w)
  = fst (batch_insert table columns converted_rows v)
  /\ pg (snd (batch_insert table columns converted_rows w))
     = pg (snd (batch_insert table columns converted_rows v)).
Proof.
  intros Hpg. rewrite !batch_insert_eq.
  destruct (executemany_pg_only table columns converted_rows 0 w v Hpg) as [Hr Hc].
  destruct (executemany table columns converted_rows 0 w) as [[n|e] w1];
    destruct (executemany table columns converted_rows 0 v) as [[n'|e'] v1];
    simpl in *; try done.
  - injection Hr as <-. by rewrite Hc.
  - by rewrite Hc.
Qed.

Lemma migrate_table_pg_only sqlite_conn table w v :
  pg w = pg v ->
  fst (migrate_table sqlite_conn table w) = fst (migrate_table sqlite_conn table v)
  /\ pg (snd (migrate_table sqlite_conn table w))
     = pg (snd (migrate_table sqlite_conn table v)).
Proof.
  intros Hpg. rewrite !migrate_table_eq; cbn zeta.
  destruct (get_table_columns sqlite_conn table) as [[|column columns]|e]; [done| |done].
  destruct (select_all sqlite_conn table) as [[|row rows]|e]; [done| |done].
  destruct (converted_rows_of table (column :: columns) (row :: rows))
    as [|converted_row converted_rows]; [done|].
  by apply batch_insert_pg_only.
Qed.

Lemma migrate_tables_pg_only sqlite_conn order w v :
  pg w = pg v ->
  pg (snd (migrate_tables sqlite_conn order w))
  = pg (snd (migrate_tables sqlite_conn order v)).
Proof.
  revert w v. induction order as [|table order IH]; intros w v Hpg; [done|].
  rewrite !migrate_tables_cons. apply IH.
  by apply migrate_table_pg_only.
Qed.

End Independence.

Lemma clean_conn c :
  current c = committed c -> tx_failed c = false ->
  {| committed := committed c; current := committed c; tx_failed := false |} = c.
Proof. destruct c; simpl; intros; by subst. Qed.

(** C4. A table whose batch insert fails, at any place of the plan, the
    connection being between two transactions when the run starts:
    [migrate_table] returns 0 for it, [total_rows] does not move, the
    connection is left exactly as the tables before it left it (nothing of
    the batch stays, nothing committed earlier is lost), one error is
    recorded for the table, with row number 0, after those of its rows;
    the loop goes on with the tables that follow, and the destination
    ends as it would had the table not been in the plan. *)
Theorem failed_batch_is_rolled_back `{PyLib} `{PgSchema}
    sqlite_conn before table after columns rows e w w_failed :
  clean (pg w) ->
  get_table_columns sqlite_conn table = Ok columns ->
  columns <> [] ->
  select_all sqlite_conn table = Ok rows ->
  converted_rows_of table columns rows <> [] ->
  executemany table columns (converted_rows_of table columns rows) 0
    (with_stats (record_row_errors table columns 1 rows)
       (snd (migrate_tables sqlite_conn before w)))
  = (Raise e, w_failed) ->
  exists w1 w2,
    migrate_tables sqlite_conn before w = (Ok tt, w1)
    /\ migrate_table sqlite_conn table w1 = (Ok 0, w2)
    /\ pg w2 = pg w1
    /\ total_rows (stats w2) = total_rows (stats w1)
    /\ errors (stats w2)
       = errors (record_row_errors table columns 1 rows (stats w1))
         ++ ["  " +:+ table +:+ " row 0: Batch insert failed: " +:+ str_exn e]
    /\ migrate_tables sqlite_conn (before ++ table :: after) w
       = migrate_tables sqlite_conn after (with_stats incr_tables_migrated w2)
    /\ pg (snd (migrate_tables sqlite_conn (before ++ table :: after) w))
       = pg (snd (migrate_tables sqlite_conn (before ++ after) w)).
Proof.
  intros Hclean Hcols Hne Hrows Hsub Hfail.
  destruct (migrate_tables_returns sqlite_conn before w) as (w1 & Hbefore & _).
  rewrite Hbefore in Hfail; cbn [snd] in Hfail.
  destruct (migrate_tables_keeps sqlite_conn before w Hclean) as ([Hcur1 Hf1] & _).
  cbn zeta in Hcur1, Hf1. rewrite Hbefore in Hcur1, Hf1; cbn [snd] in Hcur1, Hf1.
  assert (Hrun : migrate_table sqlite_conn table w1
                 = (Ok 0,
                    with_line ("  ✗ " +:+ table +:+ ": Batch insert failed - " +:+ str_exn e)
                      (with_stats (add_error table 0 ("Batch insert failed: " +:+ str_exn e))
                         (with_pg pg_rollback w_failed)))).
  { rewrite migrate_table_eq; cbn zeta. rewrite Hcols, Hrows.
    destruct columns as [|column columns]; [done|].
    destruct rows as [|row rows]; [done|].
    destruct (converted_rows_of table (column :: columns) (row :: rows))
      as [|converted_row converted_rows]; [done|].
    by rewrite batch_insert_eq, Hfail. }
  destruct (executemany_frame table columns (converted_rows_of table columns rows) 0
              (with_stats (record_row_errors table columns 1 rows) w1))
    as (r & c & Hx & Hc & _).
  rewrite Hfail in Hx. injection Hx as <- ->.
  assert (Hpg : pg_rollback c = pg w1).
  { unfold pg_rollback. cbn in Hc. rewrite Hc. by apply clean_conn. }
  eexists w1, _. split; [done|]. split; [exact Hrun|].
  split; [exact Hpg|]. split; [|split; [|split]].
  - cbn. by rewrite record_row_errors_total_rows.
  - reflexivity.
  - rewrite migrate_tables_app, Hbefore; cbn [snd].
    by rewrite migrate_tables_cons, Hrun.
  - rewrite !migrate_tables_app, Hbefore; cbn [snd].
    rewrite migrate_tables_cons, Hrun; cbn [snd].
    by apply migrate_tables_pg_only.
Qed.

Lemma failed_batch_is_rolled_back_witness :
  MIGRATION_ORDER = tables_before_audit_logs ++ "audit_logs" :: tables_after_audit_logs
  /\ exists w1 w2,
       @migrate_tables sample_lib sample_schema null_key_source tables_before_audit_logs
         (sample_world sample_dest) = (Ok tt, w1)
       /\ @migrate_table sample_lib sample_schema null_key_source "audit_logs" w1 = (Ok 0, w2)
       /\ pg w2 = pg w1
       /\ errors (stats w2) = ["  audit_logs row 0: Batch insert failed: row rejected by the table"]
       /\ pg (snd (@migrate_tables sample_lib sample_schema null_key_source MIGRATION_ORDER
                     (sample_world sample_dest)))
          = pg (snd (@migrate_tables sample_lib sample_schema null_key_source
                       (tables_before_audit_logs ++ tables_after_audit_logs)
                       (sample_world sample_dest))).
Proof.
  split; [reflexivity|].
  destruct (@failed_batch_is_rolled_back sample_lib sample_schema null_key_source
              tables_before_audit_logs "audit_logs" tables_after_audit_logs
              ["id"; "details"] [[PInt 1; PStr "{}"]; [PNone; PStr "{}"]]
              (Exn DatabaseError "row rejected by the table")
              (sample_world sample_dest)
              (snd (@executemany sample_schema "audit_logs" ["id"; "details"]
                      [[PInt 1; PStr "{}"]; [PNone; PStr "{}"]] 0
                      (snd (@migrate_tables sample_lib sample_schema null_key_source
                              tables_before_audit_logs (sample_world sample_dest))))))
    as (w1 & w2 & Hb & Hrun & Hpg & _ & Herr & _ & Hsame).
  - by split.
  - reflexivity.
  - discriminate.
  - reflexivity.
  - by vm_compute.
  - by vm_compute.
  - exists w1, w2. do 3 (split; [assumption|]). split; [|exact Hsame].
    rewrite Herr.
    assert (Hw1 : snd (@migrate_tables sample_lib sample_schema null_key_source
                         tables_before_audit_logs (sample_world sample_dest)) = w1)
      by (by rewrite Hb).
    rewrite <- Hw1. by vm_compute.
Defined.

(** ** The statistics of a run *)

Section StatsOfARun.
Context `{PyLib} `{PgSchema}.





End StatsOfARun.

(** ** More on the run *)




(** ** More on the conversion of values *)






